(** * Validation orchestration of the e-commerce data pipeline

    A shallow embedding of the decision logic of
    [validation_optimization.py] (class [ValidationOptimizer]) and
    [monitoring_alerts.py] (class [AlertManager]), with the properties of
    the change detector, the result cache, the sampling selector, the
    threshold evaluator, the severity classifier and the alert history.

    Conventions of the embedding.
    - Python [int] is [Z]; a Python [float] is the rational [Q] it
      denotes, and comparisons are the exact ones. The quotients and
      the product on which the change detector and the sampling plan
      turn round their exact result to the nearest double
      ([round_double]; the exponent is not bounded above, no number in
      reach of the 64-bit row counts of Spark overflows). The age of a
      cache entry and the percentages of the alert manager are computed
      without rounding.
    - A Python [dict] used as a map is a [gmap string _]; a [dict] that
      the code iterates over is an association list in insertion order.
    - A Spark [DataFrame] is seen through what the code asks of it: its
      row count, the result of the two hash computations, its rows.
    - An exception that escapes a function is a [Raise] result. *)

From Stdlib Require Import ZArith QArith String Ascii List Bool Lia.
From Stdlib Require PrimFloat FloatOps SpecFloat Uint63.
From stdpp Require Import base option list gmap strings.

Open Scope string_scope.
Open Scope list_scope.
Open Scope Z_scope.

(** ** Python values and exceptions *)

Inductive exn : Type :=
| NameError (name : string)
| ZeroDivisionError
| KeyError (key : string)
| TypeError.

Inductive result (A : Type) : Type :=
| Ok (a : A)
| Raise (e : exn).
Arguments Ok {A} a.
Arguments Raise {A} e.

Definition result_bind {A B} (r : result A) (k : A → result B) : result B :=
  match r with
  | Ok a => k a
  | Raise e => Raise e
  end.

#[global] Instance result_ret : MRet result := λ A a, Ok a.
#[global] Instance result_mbind : MBind result := λ A B k r, result_bind r k.

(** Strict and non-strict comparison of floats, as booleans. *)
Definition Qleb (a b : Q) : bool := Qle_bool a b.
Definition Qltb (a b : Q) : bool := negb (Qle_bool b a).

(** Python's [max(a, b)]: the first argument unless the second is
    strictly greater. *)
Definition py_max (a b : Q) : Q := if Qltb a b then b else a.

(** Python's [int(x)] on a float: truncation toward zero. *)
Definition py_int (x : Q) : Z := Z.quot (Qnum x) (Zpos (Qden x)).

(** Python's true division [a / b] on numbers. *)
Definition py_div (a b : Q) : result Q :=
  if Qeq_bool b 0 then Raise ZeroDivisionError else Ok (a / b)%Q.

(** *** Doubles *)

(** Whether [2 ^ l <= n / d], for positive [n] and [d]. *)
Definition pow2_le (l n d : Z) : bool :=
  if 0 <=? l then 2 ^ l * d <=? n else d <=? 2 ^ (- l) * n.

(** The integer part of the binary logarithm of [n / d], for positive
    [n] and [d]. *)
Definition floor_log2 (n d : Z) : Z :=
  let l := Z.log2 n - Z.log2 d in
  if pow2_le l n d then l else l - 1.

(** The integer nearest to [n / d], the even one of two that are
    equally near; [d] is positive. *)
Definition round_half_even (n d : Z) : Z :=
  let q := n / d in
  match 2 * (n mod d) ?= d with
  | Lt => q
  | Gt => q + 1
  | Eq => if Z.even q then q else q + 1
  end.

(** The double nearest to [n / d], for positive [n] and [d]: a multiple
    of [2 ^ e] with a factor of at most 53 bits, where [e] is at least
    -1074, the exponent of the smallest subnormal double. *)
Definition round_double_pos (n d : Z) : Q :=
  let e := Z.max (-1074) (floor_log2 n d - 52) in
  if 0 <=? e
  then inject_Z (round_half_even n (d * 2 ^ e) * 2 ^ e)
  else round_half_even (n * 2 ^ (- e)) d # Z.to_pos (2 ^ (- e)).

(** Rounding to the nearest double, ties to even (IEEE 754 binary64). *)
Definition round_double (q : Q) : Q :=
  match Qnum q with
  | 0 => 0%Q
  | Zpos n => round_double_pos (Zpos n) (Zpos (Qden q))
  | Zneg n => (- round_double_pos (Zpos n) (Zpos (Qden q)))%Q
  end.
Arguments round_double : simpl never.

(** Python's [float(n)] of an [int]. *)
Definition py_float_of_int (n : Z) : Q := round_double (inject_Z n).

(** Python's [a * b] on floats. *)
Definition py_float_mul (a b : Q) : Q := round_double (a * b).

(** The value of Python's [a / b] on two [int], [b] not zero: the double
    nearest to the exact quotient. *)
Definition int_quotient (a b : Z) : Q :=
  round_double (inject_Z a / inject_Z b).
Arguments int_quotient : simpl never.

(** Python's [a / b] on two [int]. *)
Definition py_int_truediv (a b : Z) : result Q :=
  if b =? 0 then Raise ZeroDivisionError else Ok (int_quotient a b).

(** Python's [a / b] on floats. *)
Definition py_float_truediv (a b : Q) : result Q :=
  if Qeq_bool b 0 then Raise ZeroDivisionError else Ok (round_double (a / b)).

(** The rational a finite float of the kernel denotes, and the quotient
    of two small integers as the machine computes it in doubles: what
    [round_double] is checked against. *)
Definition rational_of_float (f : PrimFloat.float) : Q :=
  match FloatOps.Prim2SF f with
  | SpecFloat.S754_finite negative m e =>
      let magnitude :=
        if 0 <=? e then inject_Z (Zpos m * 2 ^ e)
        else Zpos m # Z.to_pos (2 ^ (- e)) in
      if negative then (- magnitude)%Q else magnitude
  | _ => 0%Q
  end.

Definition machine_quotient (a b : Z) : Q :=
  rational_of_float
    (PrimFloat.div (PrimFloat.of_uint63 (Uint63.of_Z a))
                   (PrimFloat.of_uint63 (Uint63.of_Z b))).

Definition machine_product (a b : Z) (c : Z) : Q :=
  rational_of_float
    (PrimFloat.mul (PrimFloat.of_uint63 (Uint63.of_Z a))
       (PrimFloat.div (PrimFloat.of_uint63 (Uint63.of_Z b))
                      (PrimFloat.of_uint63 (Uint63.of_Z c)))).

(** ** validation_optimization.py *)

Module ValidationOptimizer.

(** The sections of [DEFAULT_CONFIG["optimization"]] that the modelled
    methods read. *)
Record selective_validation_config : Type := {
  sv_enabled : bool;
  check_data_hash : bool;
  check_schema_changes : bool;
  check_row_count_changes : bool;
  row_count_threshold : Q;
  skip_unchanged_data : bool
}.

Record sampling_config : Type := {
  sampling_enabled : bool;
  threshold_rows : Z;
  sampling_method : string;
  sample_size : Q;
  min_sample_rows : Z;
  stratify_columns : list string
}.

Record caching_config : Type := {
  caching_enabled : bool;
  ttl_seconds : Q;
  max_cache_entries : Z;
  cache_expectations : bool;
  cache_validation_results : bool
}.

Record config : Type := {
  selective_validation : selective_validation_config;
  sampling : sampling_config;
  caching : caching_config
}.

Definition DEFAULT_CONFIG : config := {|
  selective_validation := {|
    sv_enabled := true;
    check_data_hash := true;
    check_schema_changes := true;
    check_row_count_changes := true;
    row_count_threshold := round_double (5 # 100);
    skip_unchanged_data := true |};
  sampling := {|
    sampling_enabled := true;
    threshold_rows := 1000000;
    sampling_method := "random";
    sample_size := round_double (1 # 10);
    min_sample_rows := 100000;
    stratify_columns := [] |};
  caching := {|
    caching_enabled := true;
    ttl_seconds := 3600;
    max_cache_entries := 100;
    cache_expectations := true;
    cache_validation_results := true |}
|}.

(** The names bound at module level by the imports and assignments of
    [validation_optimization.py]; a method body that mentions any other
    free name raises [NameError] when it is evaluated. *)
Definition module_globals : list string :=
  [ "os"; "sys"; "logging"; "json"; "datetime"; "hashlib"; "pickle";
    "lru_cache"; "pd"; "np"; "ge"; "RuntimeBatchRequest"; "Validator";
    "SparkSession"; "multiprocessing"; "ThreadPoolExecutor";
    "ProcessPoolExecutor"; "create_data_context";
    "configure_spark_datasource"; "logger"; "BASE_DIR"; "CONFIG_DIR";
    "CACHE_DIR"; "DEFAULT_CONFIG"; "ValidationOptimizer" ].

Definition resolve_global (name : string) : result unit :=
  if bool_decide (name ∈ module_globals) then Ok tt else Raise (NameError name).

(** What [_should_validate] does to its DataFrame and to the numbers,
    in the order it does it. *)
Inductive event : Type :=
| EvCount
| EvComputeSchemaHash
| EvComputeDataHash
| EvDivide (numerator divisor : Z).

(** A computation that records the events it performs. *)
Definition traced (A : Type) : Type := (A * list event)%type.

#[global] Instance traced_ret : MRet traced := λ A a, (a, []).
#[global] Instance traced_mbind : MBind traced :=
  λ A B k m, let '(a, t1) := m in let '(b, t2) := k a in (b, t1 ++ t2).

Definition emit {A} (e : event) (a : A) : traced A := (a, [e]).

Section Optimizer.

(** The validation result of the external engine and the rows of a
    DataFrame are opaque to the optimizer. *)
Context {ValidationResult Row : Type}.

(** A DataFrame as one call of the optimizer observes it: [df.count()],
    the value [_compute_schema_hash(df)] returns and the value
    [_compute_data_hash(df)] returns in that call. Both hash functions
    catch every exception and return [None], which is [None] here too.
    Above 1000 rows [_compute_data_hash] hashes a random sample drawn
    without seed, so that two calls on the same data can return
    different hashes: each call has its own observation, and what two
    observations share is stated where it is needed. *)
Record DataFrame : Type := {
  df_count : Z;
  df_schema_hash : option string;
  df_data_hash : option string;
  df_rows : list Row
}.

Record cache_entry : Type := {
  ce_result : ValidationResult;
  ce_timestamp : Q
}.

(** The instance attributes [cache], [data_hashes], [schema_hashes] and
    [row_counts]. A stored hash is itself a possibly-[None] value. *)
Record optimizer : Type := {
  cache : gmap string cache_entry;
  data_hashes : gmap string (option string);
  schema_hashes : gmap string (option string);
  row_counts : gmap string Z
}.

Definition init : optimizer :=
  {| cache := ∅; data_hashes := ∅; schema_hashes := ∅; row_counts := ∅ |}.

Definition count (df : DataFrame) : traced Z := emit EvCount (df_count df).

Definition _compute_data_hash (df : DataFrame) : traced (option string) :=
  emit EvComputeDataHash (df_data_hash df).

Definition _compute_schema_hash (df : DataFrame) : traced (option string) :=
  emit EvComputeSchemaHash (df_schema_hash df).

(** [abs(current - previous) / previous] on integers: a double. *)
Definition change_percent_of (current previous : Z) : traced Q :=
  emit (EvDivide (Z.abs (current - previous)) previous)
       (int_quotient (Z.abs (current - previous)) previous).

Definition dataset_key (layer dataset : string) : string :=
  layer +:+ "_" +:+ dataset.

(** The row-count block of [_should_validate]; [true] stands for the
    [return True] of the block, [false] for falling through. *)
Definition row_count_check (sv : selective_validation_config) (self : optimizer)
    (key : string) (current_row_count : Z) : traced bool :=
  if check_row_count_changes sv then
    match row_counts self !! key with
    | Some previous_row_count =>
        if 0 <? previous_row_count then
          change_percent ← change_percent_of current_row_count previous_row_count;
          if Qleb change_percent (row_count_threshold sv)
          then mret false
          else mret true
        else mret true
    | None => mret false
    end
  else mret false.

Definition schema_check (sv : selective_validation_config) (self : optimizer)
    (key : string) (df : DataFrame) : traced bool :=
  if check_schema_changes sv then
    current_schema_hash ← _compute_schema_hash df;
    match schema_hashes self !! key with
    | Some previous_schema_hash =>
        mret (bool_decide (current_schema_hash ≠ previous_schema_hash))
    | None => mret false
    end
  else mret false.

Definition data_hash_check (sv : selective_validation_config) (self : optimizer)
    (key : string) (df : DataFrame) : traced bool :=
  if check_data_hash sv then
    current_data_hash ← _compute_data_hash df;
    match data_hashes self !! key with
    | Some previous_data_hash =>
        mret (bool_decide (current_data_hash ≠ previous_data_hash))
    | None => mret false
    end
  else mret false.

Definition _should_validate_traced (cfg : config) (self : optimizer)
    (df : DataFrame) (layer dataset : string) : traced bool :=
  let sv := selective_validation cfg in
  if negb (sv_enabled sv) then mret true else
  let key := dataset_key layer dataset in
  current_row_count ← count df;
  returned ← row_count_check sv self key current_row_count;
  if returned : bool then mret true else
  returned ← schema_check sv self key df;
  if returned : bool then mret true else
  returned ← data_hash_check sv self key df;
  if returned : bool then mret true else
  if skip_unchanged_data sv then mret false else mret true.

Definition _should_validate (cfg : config) (self : optimizer)
    (df : DataFrame) (layer dataset : string) : bool :=
  fst (_should_validate_traced cfg self df layer dataset).

Definition _update_data_metadata (self : optimizer) (df : DataFrame)
    (layer dataset : string) : optimizer :=
  let key := dataset_key layer dataset in
  {| cache := cache self;
     row_counts := <[key := df_count df]> (row_counts self);
     schema_hashes := <[key := df_schema_hash df]> (schema_hashes self);
     data_hashes := <[key := df_data_hash df]> (data_hashes self) |}.

(** *** Sampling *)

(** Spark's own operations are external to the optimizer:
    [df.sample(False, fraction)], which Spark may refuse (a fraction out
    of range), the ids that [monotonically_increasing_id()] gives the
    rows of a DataFrame, the groups of
    [df.groupBy(cols).count().collect()] and the sampling by strata of
    [DataFrame.sampleBy]. *)
Context {GroupKey : Type}.
Context (spark_sample : Q → list Row → result (list Row)).
Context (monotonically_increasing_id : list Row → list Z).
Context (df_columns : DataFrame → list string).
Context (spark_group_keys : list string → list Row → list GroupKey).
Context (spark_sampleBy :
  list string → list (GroupKey * Q) → list Row → result (list Row)).

(** Python's [min(a, b)]: the first argument unless the second is
    strictly smaller. *)
Definition py_min (a b : Q) : Q := if Qltb b a then b else a.

(** [df.filter(F.col("row_num") % step == 0)]: Spark's [%] is the
    remainder of the truncated division and is null for a zero divisor,
    and a null condition keeps no row. *)
Definition systematic_filter (step : Z) (rows : list Row) (ids : list Z)
    : list Row :=
  if step =? 0 then []
  else fst <$> filter (λ p, Z.rem (snd p) step = 0) (zip rows ids).

(** What [col] can be in a call [df.sampleBy(col, fractions, seed)]. *)
Inductive column_argument : Type :=
| ColumnName (name : string)
| ColumnList (names : list string).

(** PySpark's [DataFrame.sampleBy]: [col] has to be the name of a
    column (or a Column); for anything else, a list among them, the
    method raises [TypeError] before Spark is asked. *)
Definition df_sampleBy (col : column_argument)
    (fractions : list (GroupKey * Q)) (rows : list Row) : result (list Row) :=
  match col with
  | ColumnName name => spark_sampleBy [name] fractions rows
  | ColumnList _ => Raise TypeError
  end.

(** [max(min_sample_rows, int(row_count * sample_size))]: the product is
    the one of two floats. *)
Definition actual_sample_size_of (sc : sampling_config) (row_count : Z) : Z :=
  Z.max (min_sample_rows sc)
        (py_int (py_float_mul (py_float_of_int row_count) (sample_size sc))).

Definition _apply_sampling (cfg : config) (df : DataFrame) : result (list Row) :=
  let sc := sampling cfg in
  if negb (sampling_enabled sc) then Ok (df_rows df) else
  let row_count := df_count df in
  if row_count <=? threshold_rows sc then Ok (df_rows df) else
  let actual_sample_size := actual_sample_size_of sc row_count in
  ratio ← py_int_truediv actual_sample_size row_count;
  let actual_fraction := py_min 1 ratio in
  if String.eqb (sampling_method sc) "random" then
    spark_sample actual_fraction (df_rows df)
  else if String.eqb (sampling_method sc) "systematic" then
    _ ← resolve_global "F";
    let ids := monotonically_increasing_id (df_rows df) in
    inverse ← py_float_truediv 1 actual_fraction;
    let step := py_int inverse in
    Ok (systematic_filter step (df_rows df) ids)
  else if String.eqb (sampling_method sc) "stratified" then
    match stratify_columns sc with
    | [] => spark_sample actual_fraction (df_rows df)
    | _ =>
        let valid_stratify_columns :=
          filter (λ col, col ∈ df_columns df) (stratify_columns sc) in
        match valid_stratify_columns with
        | [] => spark_sample actual_fraction (df_rows df)
        | _ =>
            let fractions :=
              (λ group_key, (group_key, py_min 1 ratio))
                <$> spark_group_keys valid_stratify_columns (df_rows df) in
            df_sampleBy (ColumnList valid_stratify_columns) fractions
              (df_rows df)
        end
    end
  else spark_sample actual_fraction (df_rows df).

(** *** Result cache *)

Definition cache_key (layer dataset expectation_suite_name : string) : string :=
  layer +:+ "_" +:+ dataset +:+ "_" +:+ expectation_suite_name.

(** [now] is the value of [datetime.datetime.now().timestamp()] at the
    call; [None] is Python's [None]. *)
Definition _get_cached_result (cfg : config) (self : optimizer) (now : Q)
    (layer dataset expectation_suite_name : string) : option ValidationResult :=
  let cc := caching cfg in
  if negb (caching_enabled cc) then None else
  let key := cache_key layer dataset expectation_suite_name in
  match cache self !! key with
  | None => None
  | Some cache_entry =>
      if Qltb (ttl_seconds cc) (now - ce_timestamp cache_entry)
      then None
      else Some (ce_result cache_entry)
  end.

(** The key of the entry with the smallest timestamp, if any. *)
Definition oldest_key (m : gmap string cache_entry) : option string :=
  fst <$>
    foldr (λ kv acc,
             match acc with
             | None => Some kv
             | Some best =>
                 if Qltb (ce_timestamp (snd kv)) (ce_timestamp (snd best))
                 then Some kv else Some best
             end)
          None (map_to_list m).

(** Modelled from the spec: the statements of [_cache_validation_result]
    after its guard are missing from the source. Section 4.4 of
    the specification: on [put], if the store exceeds [maxEntries], the
    single oldest entry (by insertion time) is evicted before inserting;
    the entry inserted carries the outcome and the time of the [put].
    The store is taken to exceed [maxEntries] when it already holds
    [maxEntries] entries, as property P4 requires. *)
Definition cache_store (cc : caching_config) (m : gmap string cache_entry)
    (now : Q) (key : string) (result : ValidationResult)
    : gmap string cache_entry :=
  let evicted :=
    if max_cache_entries cc <=? Z.of_nat (size m) then
      match oldest_key m with
      | Some k => delete k m
      | None => m
      end
    else m in
  <[key := {| ce_result := result; ce_timestamp := now |}]> evicted.

(** The guard is the source's; the store behind it is [cache_store]. *)
Definition _cache_validation_result (cfg : config) (self : optimizer) (now : Q)
    (layer dataset expectation_suite_name : string) (result : ValidationResult)
    : optimizer :=
  let cc := caching cfg in
  if negb (caching_enabled cc) || negb (cache_validation_results cc) then self
  else
    let key := cache_key layer dataset expectation_suite_name in
    {| cache := cache_store cc (cache self) now key result;
       data_hashes := data_hashes self;
       schema_hashes := schema_hashes self;
       row_counts := row_counts self |}.

End Optimizer.

(** *** Vocabulary of the properties *)

(** The relative change of the row count as the code computes it,
    [abs(current - previous) / previous] in double precision. *)
Definition relative_change (current previous : Z) : Q :=
  int_quotient (Z.abs (current - previous)) previous.


(** An event that is not a division by zero or by a negative number. *)
Definition positive_divisor (e : event) : Prop :=
  match e with
  | EvDivide _ d => 0 < d
  | _ => True
  end.

(** *** Inputs of the scenarios: the dataset [orders] of the bronze layer *)

Definition orders (row_count : Z) (data_hash : option string) : @DataFrame unit :=
  {| df_count := row_count;
     df_schema_hash := Some "5d41402abc4b2a76b9719d911017c592";
     df_data_hash := data_hash;
     df_rows := [] |}.

Definition hashed : option string := Some "7d793037a0760186574b0282f2f435e7".

(** The optimizer after the metadata of a DataFrame was recorded. *)
Definition recorded (df : @DataFrame unit) : @optimizer unit :=
  _update_data_metadata init df "bronze" "orders".

(** The default configuration with the caching of validation results
    switched off; caching itself stays enabled. *)
Definition results_not_cached : config :=
  {| selective_validation := selective_validation DEFAULT_CONFIG;
     sampling := sampling DEFAULT_CONFIG;
     caching := {|
       caching_enabled := true;
       ttl_seconds := 3600;
       max_cache_entries := 100;
       cache_expectations := true;
       cache_validation_results := false |} |}.

(** The default configuration with the systematic method selected. *)
Definition systematic_config : config :=
  {| selective_validation := selective_validation DEFAULT_CONFIG;
     sampling := {|
       sampling_enabled := true;
       threshold_rows := 1000000;
       sampling_method := "systematic";
       sample_size := round_double (1 # 10);
       min_sample_rows := 100000;
       stratify_columns := [] |};
     caching := caching DEFAULT_CONFIG |}.

(** *** Vocabulary of the further properties *)

(** No underscore among the characters of a name. *)
Fixpoint no_underscore (s : string) : bool :=
  match s with
  | EmptyString => true
  | String c rest => negb (Ascii.eqb c "_"%char) && no_underscore rest
  end.

(** A configuration with another [row_count_threshold]. *)
Definition with_row_count_threshold (cfg : config) (t : Q) : config :=
  {| selective_validation := {|
       sv_enabled := sv_enabled (selective_validation cfg);
       check_data_hash := check_data_hash (selective_validation cfg);
       check_schema_changes := check_schema_changes (selective_validation cfg);
       check_row_count_changes :=
         check_row_count_changes (selective_validation cfg);
       row_count_threshold := t;
       skip_unchanged_data := skip_unchanged_data (selective_validation cfg) |};
     sampling := sampling cfg;
     caching := caching cfg |}.

(** A configuration with another [sampling_method]. *)
Definition with_sampling_method (cfg : config) (method : string) : config :=
  {| selective_validation := selective_validation cfg;
     sampling := {|
       sampling_enabled := sampling_enabled (sampling cfg);
       threshold_rows := threshold_rows (sampling cfg);
       sampling_method := method;
       sample_size := sample_size (sampling cfg);
       min_sample_rows := min_sample_rows (sampling cfg);
       stratify_columns := stratify_columns (sampling cfg) |};
     caching := caching cfg |}.

(** The default configuration with the stratified method on two
    columns. *)
Definition stratified_config : config :=
  {| selective_validation := selective_validation DEFAULT_CONFIG;
     sampling := {|
       sampling_enabled := true;
       threshold_rows := 1000000;
       sampling_method := "stratified";
       sample_size := round_double (1 # 10);
       min_sample_rows := 100000;
       stratify_columns := ["category"; "region"] |};
     caching := caching DEFAULT_CONFIG |}.

(** The default configuration with [skip_unchanged_data] switched off. *)
Definition skip_disabled : config :=
  {| selective_validation := {|
       sv_enabled := true;
       check_data_hash := true;
       check_schema_changes := true;
       check_row_count_changes := true;
       row_count_threshold := round_double (5 # 100);
       skip_unchanged_data := false |};
     sampling := sampling DEFAULT_CONFIG;
     caching := caching DEFAULT_CONFIG |}.

(** An optimizer whose cache holds one outcome, put at time 0. *)
Definition cached_at_zero : @optimizer bool :=
  {| cache :=
       {[ cache_key "bronze" "orders" "orders_suite" :=
            {| ce_result := true; ce_timestamp := 0 |} ]};
     data_hashes := ∅; schema_hashes := ∅; row_counts := ∅ |}.

(** A DataFrame of [row_count] rows of which nothing else is asked. *)
Definition counted (row_count : Z) : @DataFrame unit :=
  {| df_count := row_count; df_schema_hash := None; df_data_hash := None;
     df_rows := [] |}.

End ValidationOptimizer.

(** ** monitoring_alerts.py *)

Module AlertManager.

(** One entry of [config["alert_thresholds"]]: the rule of a scope. *)
Record threshold_rule : Type := {
  tr_success_rate : Q;
  tr_failed_validations : Z;
  tr_failed_expectations : Z
}.

(** [config["alert_thresholds"]]: the key ["global"], the key
    ["datasets"] (a nested dict of rules by dataset name), and every
    other key, which names a layer. *)
Record alert_thresholds : Type := {
  at_global : threshold_rule;
  at_layers : gmap string threshold_rule;
  at_datasets : gmap string threshold_rule
}.

Record severity_level : Type := {
  sl_threshold : Q;
  sl_escalation : bool;
  sl_notification_channels : list string
}.

(** [config["alert_severity_levels"]]. *)
Record alert_severity_levels : Type := {
  lv_critical : severity_level;
  lv_high : severity_level;
  lv_medium : severity_level;
  lv_low : severity_level
}.

Record alert_history_config : Type := {
  retention_days : Z;
  max_entries : Z
}.

Record config : Type := {
  thresholds : alert_thresholds;
  severity_levels : alert_severity_levels;
  history_config : alert_history_config
}.

Definition DEFAULT_CONFIG : config := {|
  thresholds := {|
    at_global := Build_threshold_rule 90 3 5;
    at_layers :=
      list_to_map [ ("bronze", Build_threshold_rule 85 5 10);
                    ("silver", Build_threshold_rule 90 3 7);
                    ("gold", Build_threshold_rule 95 1 3) ];
    at_datasets :=
      list_to_map [ ("user_activity", Build_threshold_rule 90 2 5);
                    ("orders", Build_threshold_rule 95 1 3);
                    ("inventory", Build_threshold_rule 95 1 3);
                    ("dim_customer", Build_threshold_rule 98 0 1);
                    ("dim_product", Build_threshold_rule 98 0 1);
                    ("fact_sales", Build_threshold_rule 98 0 1);
                    ("kpi_revenue", Build_threshold_rule 100 0 0) ] |};
  severity_levels := {|
    lv_critical := {| sl_threshold := 95; sl_escalation := true;
                      sl_notification_channels := ["email"; "slack"] |};
    lv_high := {| sl_threshold := 90; sl_escalation := true;
                  sl_notification_channels := ["email"; "slack"] |};
    lv_medium := {| sl_threshold := 80; sl_escalation := false;
                    sl_notification_channels := ["slack"] |};
    lv_low := {| sl_threshold := 70; sl_escalation := false;
                 sl_notification_channels := ["slack"] |} |};
  history_config := {| retention_days := 90; max_entries := 1000 |}
|}.

(** The validation summary built by [ValidationReporter]. *)
Record layer_data : Type := {
  ld_total : Z;
  ld_success : Z;
  ld_failure : Z;
  ld_rate : Q
}.

Record dataset_data : Type := {
  dd_layer : string;
  dd_success : bool;
  dd_success_rate : Q;
  dd_failed_expectations : Z
}.

Record validation_summary : Type := {
  vs_success_rate : Q;
  vs_failed_validations : Z;
  vs_layers : list (string * layer_data);
  vs_datasets : list (string * dataset_data)
}.

(** A breach dict. The keys ["layer"] and ["dataset"] are present only at
    some levels; the ["description"] text, formatted for the reader of
    the alert, is left out. *)
Record breach : Type := {
  b_level : string;
  b_layer : option string;
  b_dataset : option string;
  b_type : string;
  b_threshold : Q;
  b_actual : Q
}.

Definition global_breaches (g : threshold_rule) (s : validation_summary)
    : list breach :=
  (if Qltb (vs_success_rate s) (tr_success_rate g) then
     [ {| b_level := "global"; b_layer := None; b_dataset := None;
          b_type := "success_rate";
          b_threshold := tr_success_rate g;
          b_actual := vs_success_rate s |} ]
   else [])
  ++
  (if tr_failed_validations g <? vs_failed_validations s then
     [ {| b_level := "global"; b_layer := None; b_dataset := None;
          b_type := "failed_validations";
          b_threshold := inject_Z (tr_failed_validations g);
          b_actual := inject_Z (vs_failed_validations s) |} ]
   else []).

(** [layer_name in self.config["alert_thresholds"]] followed by
    [self.config["alert_thresholds"][layer_name]]. The dict also holds
    the keys ["global"] and ["datasets"]: a layer called ["global"] is
    checked against the global rule, and for a layer called ["datasets"]
    the value found is the nested dict of dataset rules, on which reading
    ["success_rate"] fails. *)
Definition layer_thresholds_of (t : alert_thresholds) (layer_name : string)
    : result (option threshold_rule) :=
  if String.eqb layer_name "global" then Ok (Some (at_global t))
  else if String.eqb layer_name "datasets" then
    match at_datasets t !! "success_rate" with
    | None => Raise (KeyError "success_rate")
    | Some _ => Raise TypeError
    end
  else Ok (at_layers t !! layer_name).

Definition layer_breaches_of (layer_thresholds : threshold_rule)
    (layer_name : string) (data : layer_data) : list breach :=
  (if Qltb (ld_rate data) (tr_success_rate layer_thresholds) then
     [ {| b_level := "layer"; b_layer := Some layer_name; b_dataset := None;
          b_type := "success_rate";
          b_threshold := tr_success_rate layer_thresholds;
          b_actual := ld_rate data |} ]
   else [])
  ++
  (if tr_failed_validations layer_thresholds <? ld_failure data then
     [ {| b_level := "layer"; b_layer := Some layer_name; b_dataset := None;
          b_type := "failed_validations";
          b_threshold := inject_Z (tr_failed_validations layer_thresholds);
          b_actual := inject_Z (ld_failure data) |} ]
   else []).

Fixpoint layer_breaches (t : alert_thresholds)
    (layers : list (string * layer_data)) : result (list breach) :=
  match layers with
  | [] => Ok []
  | (layer_name, data) :: rest =>
      found ← layer_thresholds_of t layer_name;
      let here :=
        match found with
        | Some layer_thresholds => layer_breaches_of layer_thresholds layer_name data
        | None => []
        end in
      more ← layer_breaches t rest;
      Ok (here ++ more)
  end.

Definition dataset_breaches_of (dataset_thresholds : threshold_rule)
    (dataset_name : string) (data : dataset_data) : list breach :=
  (if Qltb (dd_success_rate data) (tr_success_rate dataset_thresholds) then
     [ {| b_level := "dataset"; b_layer := Some (dd_layer data);
          b_dataset := Some dataset_name;
          b_type := "success_rate";
          b_threshold := tr_success_rate dataset_thresholds;
          b_actual := dd_success_rate data |} ]
   else [])
  ++
  (if negb (dd_success data) && (tr_failed_validations dataset_thresholds =? 0) then
     [ {| b_level := "dataset"; b_layer := Some (dd_layer data);
          b_dataset := Some dataset_name;
          b_type := "failed_validation";
          b_threshold := inject_Z (tr_failed_validations dataset_thresholds);
          b_actual := 1 |} ]
   else [])
  ++
  (if tr_failed_expectations dataset_thresholds <? dd_failed_expectations data then
     [ {| b_level := "dataset"; b_layer := Some (dd_layer data);
          b_dataset := Some dataset_name;
          b_type := "failed_expectations";
          b_threshold := inject_Z (tr_failed_expectations dataset_thresholds);
          b_actual := inject_Z (dd_failed_expectations data) |} ]
   else []).

Fixpoint dataset_breaches (t : alert_thresholds)
    (datasets : list (string * dataset_data)) : list breach :=
  match datasets with
  | [] => []
  | (dataset_name, data) :: rest =>
      match at_datasets t !! dataset_name with
      | Some dataset_thresholds =>
          dataset_breaches_of dataset_thresholds dataset_name data
      | None => []
      end ++ dataset_breaches t rest
  end.

Definition check_thresholds (cfg : config) (validation_summary : validation_summary)
    : result (list breach) :=
  let t := thresholds cfg in
  let from_global := global_breaches (at_global t) validation_summary in
  from_layers ← layer_breaches t (vs_layers validation_summary);
  Ok (from_global ++ from_layers
        ++ dataset_breaches t (vs_datasets validation_summary)).

(** *** Severity *)

Inductive severity : Type := low | medium | high | critical.

(** The loop of [determine_severity] over the breaches, from the
    running value [breach_percentage]. *)
Fixpoint breach_percentage_from (breach_percentage : Q) (breaches : list breach)
    : result Q :=
  match breaches with
  | [] => Ok breach_percentage
  | breach :: rest =>
      if String.eqb (b_type breach) "success_rate" then
        let threshold := b_threshold breach in
        let actual := b_actual breach in
        ratio ← py_div (threshold - actual) threshold;
        let percentage_below := (ratio * 100)%Q in
        breach_percentage_from (py_max breach_percentage percentage_below) rest
      else breach_percentage_from breach_percentage rest
  end.

(** Modelled from the spec: the statements of [determine_severity] after
    the loop (from the read of [alert_severity_levels] on) are missing
    from the source. Section 4.7 of the specification: pick the
    highest severity level whose configured threshold is at most the
    maximum (levels ordered critical > high > medium > low); if the
    maximum is below the lowest level's threshold, no severity. *)
Definition classify (levels : alert_severity_levels) (breach_percentage : Q)
    : option severity :=
  if Qleb (sl_threshold (lv_critical levels)) breach_percentage then Some critical
  else if Qleb (sl_threshold (lv_high levels)) breach_percentage then Some high
  else if Qleb (sl_threshold (lv_medium levels)) breach_percentage then Some medium
  else if Qleb (sl_threshold (lv_low levels)) breach_percentage then Some low
  else None.

(** The guard and the loop are the source's; the choice of the level
    behind them is [classify]. [None] is Python's [None]. *)
Definition determine_severity (cfg : config) (breaches : list breach)
    : result (option severity) :=
  match breaches with
  | [] => Ok None
  | _ =>
      breach_percentage ← breach_percentage_from 0 breaches;
      Ok (classify (severity_levels cfg) breach_percentage)
  end.


(** [percentBelow] of a success-rate breach. *)
Definition percent_below (b : breach) : Q :=
  ((b_threshold b - b_actual b) / b_threshold b * 100)%Q.

Definition is_success_rate (b : breach) : Prop := b_type b = "success_rate".

(** [p] is the greatest of 0, the value the loop starts from, and the
    [percentBelow] of the success-rate breaches of [bs]. *)
Definition greatest_percent_below (bs : list breach) (p : Q) : Prop :=
  (0 <= p)%Q
  ∧ (∀ b, b ∈ bs → is_success_rate b → (percent_below b <= p)%Q)
  ∧ ((p == 0)%Q ∨ ∃ b, b ∈ bs ∧ is_success_rate b ∧ (percent_below b == p)%Q).

(** No success-rate breach divides by a zero threshold. *)
Definition nonzero_thresholds (bs : list breach) : bool :=
  forallb (λ b, negb (String.eqb (b_type b) "success_rate")
                || negb (Qeq_bool (b_threshold b) 0)) bs.

(** *** Alert history *)

(** Python's [l[start:]]. *)
Definition py_slice_from {A} (start : Z) (l : list A) : list A :=
  let len := Z.of_nat (length l) in
  let first := if start <? 0 then Z.max 0 (start + len) else Z.min start len in
  drop (Z.to_nat first) l.

(** Python's [a >= b] on [str]: the lexicographic order of the code
    points. *)
Definition py_str_ge (a b : string) : bool := negb (String.ltb a b).

Section History.

(** An alert record is a dict; the history reads its ["timestamp"]. *)
Context {Alert : Type}.
Context (alert_get_timestamp : Alert → option string).

(** The test of the retention filter:
    [alert.get("timestamp", "0") >= cutoff_date]. *)
Definition recent_enough (cutoff_date : string) (alert : Alert) : bool :=
  py_str_ge (default "0" (alert_get_timestamp alert)) cutoff_date.

(** [(datetime.datetime.now() - datetime.timedelta(days=retention_days)).isoformat()]
    at the time of the save; [None] when the date arithmetic raises
    (a number of days out of the range of [timedelta] or of [datetime]). *)
Context (cutoff_date_of : Z → option string).

(** What a save leaves behind: [self.alert_history], and the list dumped
    to the history file, if the save got that far. *)
Record saved : Type := {
  alert_history : list Alert;
  history_file : option (list Alert)
}.

(** [file_writable] tells whether opening and writing the history file
    succeeds. Every exception is caught by the method, which then only
    logs it. *)
Definition _save_alert_history (cfg : config) (file_writable : bool)
    (self_alert_history : list Alert) : saved :=
  let max_entries := max_entries (history_config cfg) in
  let retention_days := retention_days (history_config cfg) in
  let pruned :=
    if max_entries <? Z.of_nat (length self_alert_history)
    then py_slice_from (- max_entries) self_alert_history
    else self_alert_history in
  let written (h : list Alert) :=
    {| alert_history := h;
       history_file := if file_writable then Some h else None |} in
  if 0 <? retention_days then
    match cutoff_date_of retention_days with
    | Some cutoff_date =>
        written (filter (λ alert, recent_enough cutoff_date alert = true) pruned)
    | None => {| alert_history := pruned; history_file := None |}
    end
  else written pruned.

End History.

(** *** Vocabulary of the properties *)

(** The summaries built by the reporter have the layers bronze, silver
    and gold; the evaluation fails on a layer called ["datasets"]. *)
Definition no_layer_called_datasets (layers : list (string * layer_data)) : bool :=
  forallb (λ entry, negb (String.eqb (fst entry) "datasets")) layers.

(** The breach a dataset raises for its failed expectations. *)
Definition failed_expectations_breach (dataset_name : string)
    (data : dataset_data) rule : breach :=
  {| b_level := "dataset"; b_layer := Some (dd_layer data);
     b_dataset := Some dataset_name;
     b_type := "failed_expectations";
     b_threshold := inject_Z (tr_failed_expectations rule);
     b_actual := inject_Z (dd_failed_expectations data) |}.

(** The breach a dataset raises under zero tolerance. *)
Definition zero_tolerance_breach (dataset_name : string)
    (data : dataset_data) : breach :=
  {| b_level := "dataset"; b_layer := Some (dd_layer data);
     b_dataset := Some dataset_name;
     b_type := "failed_validation";
     b_threshold := inject_Z 0;
     b_actual := 1 |}.

(** *** Inputs of the scenarios: a run on the default thresholds *)

(** One failed validation, of [orders] in the bronze layer, with 100
    failed expectations; and one of [dim_customer] in the gold layer. *)
Definition orders_failed : dataset_data :=
  {| dd_layer := "bronze"; dd_success := false;
     dd_success_rate := 96; dd_failed_expectations := 100 |}.

Definition dim_customer_failed : dataset_data :=
  {| dd_layer := "gold"; dd_success := false;
     dd_success_rate := 99; dd_failed_expectations := 1 |}.

Definition summary_of (dataset_name : string) (data : dataset_data)
    : validation_summary :=
  {| vs_success_rate := 95;
     vs_failed_validations := 1;
     vs_layers :=
       [ ("bronze", {| ld_total := 20; ld_success := 20; ld_failure := 0;
                       ld_rate := 100 |});
         ("silver", {| ld_total := 20; ld_success := 20; ld_failure := 0;
                       ld_rate := 100 |});
         ("gold", {| ld_total := 20; ld_success := 19; ld_failure := 1;
                     ld_rate := 95 |}) ];
     vs_datasets := [ (dataset_name, data) ] |}.

(** A run in which every scope is in breach: 10 of 40 validations
    failed, all of them in the bronze layer, and [orders] failed 100
    expectations. *)
Definition orders_in_breach : dataset_data :=
  {| dd_layer := "bronze"; dd_success := false;
     dd_success_rate := 50; dd_failed_expectations := 100 |}.

Definition run_in_breach : validation_summary :=
  {| vs_success_rate := 75;
     vs_failed_validations := 10;
     vs_layers :=
       [ ("bronze", {| ld_total := 20; ld_success := 10; ld_failure := 10;
                       ld_rate := 50 |});
         ("silver", {| ld_total := 10; ld_success := 10; ld_failure := 0;
                       ld_rate := 100 |});
         ("gold", {| ld_total := 10; ld_success := 10; ld_failure := 0;
                     ld_rate := 100 |}) ];
     vs_datasets := [ ("orders", orders_in_breach) ] |}.

(** Scenario C and a deeper breach. *)

Definition success_rate_breach (threshold actual : Q) : breach :=
  {| b_level := "dataset"; b_layer := Some "bronze"; b_dataset := Some "orders";
     b_type := "success_rate"; b_threshold := threshold; b_actual := actual |}.

(** The default configuration with other bounds on the history. *)
Definition with_history (retention max : Z) : config :=
  {| thresholds := thresholds DEFAULT_CONFIG;
     severity_levels := severity_levels DEFAULT_CONFIG;
     history_config := {| retention_days := retention; max_entries := max |} |}.

(** *** Vocabulary of the further properties *)

(** A breach reports a number on the wrong side of its threshold: a
    success rate below it, a count above it. *)
Definition out_of_bounds (b : breach) : Prop :=
  if String.eqb (b_type b) "success_rate"
  then (b_actual b < b_threshold b)%Q
  else (b_threshold b < b_actual b)%Q.

(** The success rates of a summary: the global one, the layers', the
    datasets'. *)
Definition summary_rates (s : validation_summary) : list Q :=
  vs_success_rate s
  :: ((λ entry, ld_rate (snd entry)) <$> vs_layers s)
  ++ ((λ entry, dd_success_rate (snd entry)) <$> vs_datasets s).

Definition rates_nonnegative (s : validation_summary) : bool :=
  forallb (Qleb 0) (summary_rates s).

(** The history after the bound on its size was applied, as the first
    step of [_save_alert_history] does. *)
Definition size_pruned {A} (max_entries : Z) (history : list A) : list A :=
  if max_entries <? Z.of_nat (length history)
  then py_slice_from (- max_entries) history
  else history.

(** Alerts named by their timestamps, and one that has none. *)
Definition stamped (alert : string) : option string :=
  if String.eqb alert "" then None else Some alert.

Definition october_alerts : list string :=
  [ "2026-07-01T08:00:00"; ""; "2026-10-02T08:00:00"; "2026-10-03T08:00:00" ].

(** The cutoff of a save on 2026-11-03 under 90 days of retention. *)
Definition august_cutoff (retention_days : Z) : option string :=
  Some "2026-08-05T09:30:00".

(** [ValidationReporter.__init__] of validation_reporting.py: the summary
    of a reporter to which no validation result was added yet (its
    timestamp and its counts of validations are not read by
    [check_thresholds]). *)
Definition initial_summary : validation_summary :=
  {| vs_success_rate := 0;
     vs_failed_validations := 0;
     vs_layers :=
       [ ("bronze", {| ld_total := 0; ld_success := 0; ld_failure := 0;
                       ld_rate := 0 |});
         ("silver", {| ld_total := 0; ld_success := 0; ld_failure := 0;
                       ld_rate := 0 |});
         ("gold", {| ld_total := 0; ld_success := 0; ld_failure := 0;
                     ld_rate := 0 |}) ];
     vs_datasets := [] |}.

End AlertManager.

(** * Properties *)

(** ** Comparisons of rationals *)

Lemma Qleb_le a b : Qleb a b = true ↔ (a <= b)%Q.
Proof. apply Qle_bool_iff. Qed.

Lemma Qleb_gt a b : Qleb a b = false ↔ (b < a)%Q.
Proof.
  unfold Qleb. split; intros H.
  - apply Qnot_le_lt. intros Hle. apply Qle_bool_iff in Hle. congruence.
  - destruct (Qle_bool a b) eqn:E; [|done].
    apply Qle_bool_iff in E. exfalso. eapply Qlt_not_le; eauto.
Qed.

Lemma Qltb_lt a b : Qltb a b = true ↔ (a < b)%Q.
Proof.
  unfold Qltb. rewrite negb_true_iff. apply Qleb_gt.
Qed.

Lemma Qltb_ge a b : Qltb a b = false ↔ (b <= a)%Q.
Proof.
  unfold Qltb. rewrite negb_false_iff. apply Qle_bool_iff.
Qed.


(** ** Rounding to doubles *)




Lemma round_double_zero (q : Q) : (q == 0)%Q → round_double q = 0%Q.
Proof.
  intros Hq. unfold round_double. destruct q as [n d].
  unfold Qeq in Hq. simpl in *. by replace n with 0 by lia.
Qed.




Lemma int_quotient_zero (b : Z) : int_quotient 0 b = 0%Q.
Proof.
  unfold int_quotient. apply round_double_zero.
  unfold Qdiv. apply Qmult_0_l.
Qed.

(** [round_double] gives what the machine gives: on these quotients of
    integers the division of the kernel's binary64 floats returns the
    same number, and so does its product on [100 * 0.29], which is below
    29. *)
Lemma round_double_as_the_machine :
  forallb (λ ab, Qeq_bool (round_double (inject_Z (fst ab) / inject_Z (snd ab)))
                          (machine_quotient (fst ab) (snd ab)))
    [ (1, 3); (5, 100); (1, 10); (29, 100); (3000, 100000); (1, 7);
      (22, 7); (355, 113); (4, 3); (999999, 1000000); (1, 1000000007);
      (2, 3); (103, 100); (7, 1) ] = true
  ∧ Qeq_bool (py_float_mul (py_float_of_int 100) (round_double (29 # 100)))
             (machine_product 100 29 100) = true
  ∧ py_int (py_float_mul (py_float_of_int 100) (round_double (29 # 100))) = 28.
Proof. split; [|split]; by vm_compute. Qed.

(** ** The tracing monad *)

Lemma traced_bind_snd {A B} (m : ValidationOptimizer.traced A)
    (k : A → ValidationOptimizer.traced B) :
  snd (m ≫= k) = snd m ++ snd (k (fst m)).
Proof.
  unfold mbind, ValidationOptimizer.traced_mbind.
  destruct m as [a t1]. simpl. by destruct (k a).
Qed.

(** ** The change detector *)

Module ChangeDetector.
Import ValidationOptimizer.

Section Decide.
Context {ValidationResult Row : Type}.

Implicit Types (cfg : config).
Implicit Types (self : @optimizer ValidationResult) (df : @DataFrame Row).
Implicit Types (layer dataset : string).

(** Unfolds the tracing monad down to pairs. *)
Ltac run_traced :=
  unfold _should_validate, _should_validate_traced, row_count_check,
    schema_check, data_hash_check, change_percent_of, count,
    _compute_schema_hash, _compute_data_hash, emit,
    mbind, traced_mbind, mret, traced_ret; simpl.

(** The decision when selective validation is on and the key has no
    stored row count, schema hash or data hash: nothing forces the
    validation, and [skip_unchanged_data] alone decides. *)
Lemma cold_start_decision cfg self df layer dataset :
  sv_enabled (selective_validation cfg) = true →
  row_counts self !! dataset_key layer dataset = None →
  schema_hashes self !! dataset_key layer dataset = None →
  data_hashes self !! dataset_key layer dataset = None →
  _should_validate cfg self df layer dataset
  = negb (skip_unchanged_data (selective_validation cfg)).
Proof.
  intros Hen Hrc Hsh Hdh. run_traced.
  rewrite Hen, Hrc, Hsh, Hdh. simpl.
  by destruct (check_row_count_changes _), (check_schema_changes _),
    (check_data_hash _), (skip_unchanged_data _).
Qed.

(** C1, evaluated on the code: under the default configuration a fresh
    optimizer, which has no fingerprint for any key, decides to skip the
    validation of every dataset; the cold start does not force it. *)
Theorem cold_start_skips df layer dataset :
  _should_validate DEFAULT_CONFIG (@init ValidationResult) df layer dataset = false.
Proof.
  rewrite cold_start_decision; [done..| | |]; apply lookup_empty.
Qed.

(** C2: with a stored fingerprint of positive row count and every check
    and [skip_unchanged_data] enabled, the decision is to skip when the
    relative row-count change is within the threshold and both hashes
    are unchanged, and to validate when any of the three differs. The
    relative change is the one the code computes and compares, the
    double [abs(current - previous) / previous]. *)
Theorem skip_correctness cfg self df layer dataset
    (previous_row_count : Z) (previous_schema_hash previous_data_hash : option string) :
  sv_enabled (selective_validation cfg) = true →
  check_row_count_changes (selective_validation cfg) = true →
  check_schema_changes (selective_validation cfg) = true →
  check_data_hash (selective_validation cfg) = true →
  skip_unchanged_data (selective_validation cfg) = true →
  row_counts self !! dataset_key layer dataset = Some previous_row_count →
  0 < previous_row_count →
  schema_hashes self !! dataset_key layer dataset = Some previous_schema_hash →
  data_hashes self !! dataset_key layer dataset = Some previous_data_hash →
  ((relative_change (df_count df) previous_row_count
      <= row_count_threshold (selective_validation cfg))%Q
   ∧ df_schema_hash df = previous_schema_hash
   ∧ df_data_hash df = previous_data_hash
   → _should_validate cfg self df layer dataset = false)
  ∧
  ((row_count_threshold (selective_validation cfg)
      < relative_change (df_count df) previous_row_count)%Q
   ∨ df_schema_hash df ≠ previous_schema_hash
   ∨ df_data_hash df ≠ previous_data_hash
   → _should_validate cfg self df layer dataset = true).
Proof.
  intros Hen Hrc Hsc Hdc Hskip Hprev Hpos Hsh Hdh.
  apply Z.ltb_lt in Hpos.
  run_traced. rewrite Hen, Hrc, Hsc, Hdc, Hskip, Hprev, Hsh, Hdh, Hpos. simpl.
  fold (relative_change (df_count df) previous_row_count).
  split.
  - intros (Hle & Hs & Hd). apply Qleb_le in Hle. rewrite Hle. simpl.
    rewrite !bool_decide_eq_false_2 by (intros ?; done). done.
  - intros Hany.
    destruct (Qleb _ _) eqn:Hq; simpl; [|done].
    destruct Hany as [Hgt | [Hs | Hd]].
    + apply Qleb_gt in Hgt. congruence.
    + by rewrite (bool_decide_eq_true_2 _ Hs).
    + destruct (bool_decide (df_schema_hash df ≠ _)); simpl; [done|].
      by rewrite (bool_decide_eq_true_2 _ Hd).
Qed.

(** The path beside the one that fails: when the data hash of the
    current DataFrame cannot be computed while the stored data hash of
    the key was computed, the two compare as different and the decision
    is to validate. *)
Theorem failed_hash_against_stored_hash cfg self df layer dataset (stored : string) :
  sv_enabled (selective_validation cfg) = true →
  check_data_hash (selective_validation cfg) = true →
  data_hashes self !! dataset_key layer dataset = Some (Some stored) →
  df_data_hash df = None →
  _should_validate cfg self df layer dataset = true.
Proof.
  intros Hen Hdc Hdh Hfail. run_traced. rewrite Hen, Hdc, Hdh, Hfail. simpl.
  destruct (check_row_count_changes _); simpl.
  - destruct (row_counts self !! _) as [prev|]; simpl.
    + destruct (0 <? prev); simpl; [|done].
      destruct (Qleb _ _); simpl; [|done].
      destruct (check_schema_changes _); simpl; [|done].
      destruct (schema_hashes self !! _); simpl; [|done].
      by destruct (bool_decide _).
    + destruct (check_schema_changes _); simpl; [|done].
      destruct (schema_hashes self !! _); simpl; [|done].
      by destruct (bool_decide _).
  - destruct (check_schema_changes _); simpl; [|done].
    destruct (schema_hashes self !! _); simpl; [|done].
    by destruct (bool_decide _).
Qed.

(** C10: when the stored row count of the key is 0, the decision is to
    validate, and the only thing done before it is the count of the
    rows: no division, no hash computation. *)
Theorem zero_previous_row_count cfg self df layer dataset :
  sv_enabled (selective_validation cfg) = true →
  check_row_count_changes (selective_validation cfg) = true →
  row_counts self !! dataset_key layer dataset = Some 0 →
  _should_validate_traced cfg self df layer dataset = (true, [EvCount]).
Proof.
  intros Hen Hrc Hprev. run_traced. by rewrite Hen, Hrc, Hprev.
Qed.

Lemma row_count_check_divisors sv self key current :
  Forall positive_divisor (snd (row_count_check sv self key current)).
Proof.
  unfold row_count_check.
  destruct (check_row_count_changes sv); [|by constructor].
  destruct (row_counts self !! key) as [prev|]; [|by constructor].
  destruct (0 <? prev) eqn:Hpos; [|by constructor].
  apply Z.ltb_lt in Hpos. rewrite traced_bind_snd.
  apply Forall_app. split.
  - by repeat constructor.
  - by destruct (Qleb _ _); constructor.
Qed.

Lemma schema_check_divisors sv self key df :
  Forall positive_divisor (snd (schema_check sv self key df)).
Proof.
  unfold schema_check.
  destruct (check_schema_changes sv); [|by constructor].
  rewrite traced_bind_snd. apply Forall_app. split; [by repeat constructor|].
  by destruct (schema_hashes self !! key); constructor.
Qed.

Lemma data_hash_check_divisors sv self key df :
  Forall positive_divisor (snd (data_hash_check sv self key df)).
Proof.
  unfold data_hash_check.
  destruct (check_data_hash sv); [|by constructor].
  rewrite traced_bind_snd. apply Forall_app. split; [by repeat constructor|].
  by destruct (data_hashes self !! key); constructor.
Qed.

(** Whatever the inputs, [_should_validate] divides by a positive
    number only. *)
Lemma division_by_positive_only cfg self df layer dataset :
  Forall positive_divisor (snd (_should_validate_traced cfg self df layer dataset)).
Proof.
  unfold _should_validate_traced.
  destruct (negb _); [by constructor|].
  rewrite traced_bind_snd. apply Forall_app; split; [by repeat constructor|].
  rewrite traced_bind_snd. apply Forall_app; split;
    [apply row_count_check_divisors|].
  destruct (fst (row_count_check _ _ _ _)); [by constructor|].
  rewrite traced_bind_snd. apply Forall_app; split;
    [apply schema_check_divisors|].
  destruct (fst (schema_check _ _ _ _)); [by constructor|].
  rewrite traced_bind_snd. apply Forall_app; split;
    [apply data_hash_check_divisors|].
  destruct (fst (data_hash_check _ _ _ _)); [by constructor|].
  by destruct (skip_unchanged_data _); constructor.
Qed.

End Decide.

(** Scenarios A and B of the specification: from 100000 rows, 103000
    rows with unchanged hashes are skipped, 125000 rows are validated. *)
Lemma skip_correctness_scenarios :
  _should_validate DEFAULT_CONFIG (recorded (orders 100000 hashed))
    (orders 103000 hashed) "bronze" "orders" = false
  ∧ _should_validate DEFAULT_CONFIG (recorded (orders 100000 hashed))
      (orders 125000 hashed) "bronze" "orders" = true.
Proof.
  split.
  - apply (skip_correctness DEFAULT_CONFIG (recorded (orders 100000 hashed))
             (orders 103000 hashed) "bronze" "orders"
             100000 (Some "5d41402abc4b2a76b9719d911017c592") hashed);
      try reflexivity.
    split; [|done]. apply Qleb_le. reflexivity.
  - apply (skip_correctness DEFAULT_CONFIG (recorded (orders 100000 hashed))
             (orders 125000 hashed) "bronze" "orders"
             100000 (Some "5d41402abc4b2a76b9719d911017c592") hashed);
      try reflexivity.
    left. apply Qltb_lt. reflexivity.
Defined.

(** At the edge of the threshold the rounding decides, as in the code:
    from 3 rows to 4 the exact change of a third is above the threshold
    0.3333333333333333, the double nearest to a third is not, and the
    validation is skipped. *)
Lemma change_at_the_edge_is_skipped :
  (round_double (3333333333333333 # 10000000000000000) < 1 # 3)%Q
  ∧ relative_change 4 3 = round_double (3333333333333333 # 10000000000000000)
  ∧ _should_validate
      (with_row_count_threshold DEFAULT_CONFIG
         (round_double (3333333333333333 # 10000000000000000)))
      (recorded (orders 3 hashed)) (orders 4 hashed) "bronze" "orders"
    = false.
Proof. split; [|split]; by vm_compute. Qed.

(** C4, evaluated on the code: the data hash of [orders] cannot be
    computed at two consecutive runs, the first of which records the
    metadata ([None] is stored); at the second run [None] compares equal
    to the stored [None] and the decision is to skip, where a failed
    hash was to force the validation. *)
Lemma failed_hash_twice_skips :
  df_data_hash (orders 100000 None) = None
  ∧ data_hashes (recorded (orders 100000 None)) !! dataset_key "bronze" "orders"
    = Some None
  ∧ _should_validate DEFAULT_CONFIG (recorded (orders 100000 None))
      (orders 100000 None) "bronze" "orders" = false.
Proof. by vm_compute. Qed.

Lemma failed_hash_against_stored_hash_orders :
  _should_validate DEFAULT_CONFIG (recorded (orders 100000 hashed))
    (orders 100000 None) "bronze" "orders" = true.
Proof.
  apply (failed_hash_against_stored_hash DEFAULT_CONFIG
           (recorded (orders 100000 hashed)) (orders 100000 None)
           "bronze" "orders" "7d793037a0760186574b0282f2f435e7");
    reflexivity.
Defined.

Lemma zero_previous_row_count_orders :
  _should_validate_traced DEFAULT_CONFIG (recorded (orders 0 hashed))
    (orders 250 None) "bronze" "orders" = (true, [EvCount]).
Proof.
  apply (zero_previous_row_count DEFAULT_CONFIG (recorded (orders 0 hashed))
           (orders 250 None) "bronze" "orders"); reflexivity.
Defined.

End ChangeDetector.

(** ** The result cache *)

Module ResultCache.
Import ValidationOptimizer.

Section Cache.
Context {ValidationResult : Type}.
Implicit Types (cfg : config) (self : @optimizer ValidationResult).
Implicit Types (layer dataset suite : string) (result : ValidationResult).

(** A [put] that passes the guard leaves the entry of its own key in
    the cache, stamped with the time of the [put]. *)
Lemma lookup_after_put cfg self now layer dataset suite result :
  caching_enabled (caching cfg) = true →
  cache_validation_results (caching cfg) = true →
  cache (_cache_validation_result cfg self now layer dataset suite result)
    !! cache_key layer dataset suite
  = Some {| ce_result := result; ce_timestamp := now |}.
Proof.
  intros Hen Hres. unfold _cache_validation_result, cache_store.
  rewrite Hen, Hres. simpl. apply lookup_insert_eq.
Qed.

(** When the guard does not pass, the [put] changes nothing. *)
Lemma put_without_result_caching cfg self now layer dataset suite result :
  cache_validation_results (caching cfg) = false →
  _cache_validation_result cfg self now layer dataset suite result = self.
Proof.
  intros Hres. unfold _cache_validation_result. rewrite Hres.
  by rewrite orb_true_r.
Qed.

(** C7, as amended: with caching and the caching of validation results
    both enabled, a [get] less than [ttl_seconds] after the [put] of the
    same key returns the outcome that was put, and a [get] more than
    [ttl_seconds] after it returns nothing. *)
Theorem cache_ttl cfg self (put_time get_time : Q) layer dataset suite result :
  caching_enabled (caching cfg) = true →
  cache_validation_results (caching cfg) = true →
  ((get_time - put_time < ttl_seconds (caching cfg))%Q →
   _get_cached_result cfg
     (_cache_validation_result cfg self put_time layer dataset suite result)
     get_time layer dataset suite = Some result)
  ∧
  ((ttl_seconds (caching cfg) < get_time - put_time)%Q →
   _get_cached_result cfg
     (_cache_validation_result cfg self put_time layer dataset suite result)
     get_time layer dataset suite = None).
Proof.
  intros Hen Hres. unfold _get_cached_result.
  rewrite (lookup_after_put _ _ _ _ _ _ _ Hen Hres), Hen. simpl.
  split; intros Hlt.
  - apply Qlt_le_weak, Qltb_ge in Hlt. by rewrite Hlt.
  - apply Qltb_lt in Hlt. by rewrite Hlt.
Qed.

(** At exactly [ttl_seconds] after the [put] the entry is still served:
    the source expires an entry when its age is strictly greater. *)
Lemma cache_hit_at_ttl cfg self (put_time get_time : Q) layer dataset suite result :
  caching_enabled (caching cfg) = true →
  cache_validation_results (caching cfg) = true →
  (get_time - put_time == ttl_seconds (caching cfg))%Q →
  _get_cached_result cfg
    (_cache_validation_result cfg self put_time layer dataset suite result)
    get_time layer dataset suite = Some result.
Proof.
  intros Hen Hres Heq. unfold _get_cached_result.
  rewrite (lookup_after_put _ _ _ _ _ _ _ Hen Hres), Hen. simpl.
  assert (Qltb (ttl_seconds (caching cfg)) (get_time - put_time) = false) as ->;
    [|done].
  apply Qltb_ge. rewrite Heq. apply Qle_refl.
Qed.

End Cache.

(** C7, as stated, fails: caching is enabled, an outcome is put at time
    0 and asked for 10 seconds later, well within the 3600 seconds, and
    the [get] returns nothing. *)
Lemma put_then_get_misses :
  caching_enabled (caching results_not_cached) = true
  ∧ (10 - 0 < ttl_seconds (caching results_not_cached))%Q
  ∧ _get_cached_result results_not_cached
      (_cache_validation_result results_not_cached (@init bool)
         0 "bronze" "orders" "orders_suite" true)
      10 "bronze" "orders" "orders_suite" = None.
Proof. split; [done|]. split; [by vm_compute|]. by vm_compute. Qed.

Lemma cache_ttl_orders :
  _get_cached_result DEFAULT_CONFIG
    (_cache_validation_result DEFAULT_CONFIG (@init bool)
       0 "bronze" "orders" "orders_suite" true)
    3599 "bronze" "orders" "orders_suite" = Some true
  ∧ _get_cached_result DEFAULT_CONFIG
      (_cache_validation_result DEFAULT_CONFIG (@init bool)
         0 "bronze" "orders" "orders_suite" true)
      3601 "bronze" "orders" "orders_suite" = None.
Proof.
  split.
  - apply (cache_ttl DEFAULT_CONFIG (@init bool) 0 3599
             "bronze" "orders" "orders_suite" true); reflexivity.
  - apply (cache_ttl DEFAULT_CONFIG (@init bool) 0 3601
             "bronze" "orders" "orders_suite" true); reflexivity.
Defined.

End ResultCache.

(** ** The sampling selector *)

Module SamplingSelector.
Import ValidationOptimizer.

Section Sampling.
Context {Row GroupKey : Type}.
Context (spark_sample : Q → list Row → result (list Row)).
Context (monotonically_increasing_id : list Row → list Z).
Context (df_columns : @DataFrame Row → list string).
Context (spark_group_keys : list string → list Row → list GroupKey).
Context (spark_sampleBy :
  list string → list (GroupKey * Q) → list Row → result (list Row)).

Lemma F_is_not_bound : resolve_global "F" = Raise (NameError "F").
Proof. by vm_compute. Qed.

(** C9, evaluated on the code: with sampling enabled, the systematic
    method and a DataFrame above the threshold, [_apply_sampling] never
    returns a sample. It raises: the name [F] it uses for Spark's
    functions is bound nowhere in the module (and for an empty DataFrame
    above a negative threshold the fraction divides by zero first). *)
Theorem systematic_sampling_raises (cfg : config) (df : @DataFrame Row) :
  sampling_enabled (sampling cfg) = true →
  threshold_rows (sampling cfg) < df_count df →
  sampling_method (sampling cfg) = "systematic" →
  _apply_sampling spark_sample monotonically_increasing_id df_columns
    spark_group_keys spark_sampleBy cfg df
  = Raise (if df_count df =? 0 then ZeroDivisionError else NameError "F").
Proof.
  intros Hen Habove Hmethod. unfold _apply_sampling.
  rewrite Hen, Hmethod. simpl.
  apply Z.leb_gt in Habove. rewrite Habove.
  unfold py_int_truediv.
  by destruct (df_count df =? 0).
Qed.

End Sampling.

(** Two million rows under the systematic configuration. *)
Lemma systematic_sampling_raises_two_million :
  _apply_sampling (λ _ rows, Ok rows) (λ rows, []) (λ _, []) (λ _ _, [])
    (λ _ (_ : list (unit * Q)) rows, Ok rows) systematic_config
    {| df_count := 2000000; df_schema_hash := None; df_data_hash := None;
       df_rows := @nil unit |}
  = Raise (NameError "F").
Proof.
  apply (systematic_sampling_raises (λ _ rows, Ok rows) (λ rows, []) (λ _, [])
           (λ _ _, []) (λ _ (_ : list (unit * Q)) rows, Ok rows)
           systematic_config
           {| df_count := 2000000; df_schema_hash := None;
              df_data_hash := None; df_rows := @nil unit |});
    reflexivity.
Defined.

End SamplingSelector.

(** ** The threshold evaluator *)

Module ThresholdEvaluator.
Import AlertManager.

Implicit Types (cfg : config) (t : alert_thresholds) (s : validation_summary).
Implicit Types (rule : threshold_rule) (b : breach).

Lemma layer_thresholds_of_ok t layer_name :
  String.eqb layer_name "datasets" = false →
  ∃ found, layer_thresholds_of t layer_name = Ok found.
Proof.
  intros Hne. unfold layer_thresholds_of. rewrite Hne.
  destruct (String.eqb layer_name "global"); by eexists.
Qed.

(** The loop over the layers returns, and what it returns holds the
    breaches of every layer that has a rule. *)
Lemma layer_breaches_complete t layers :
  no_layer_called_datasets layers = true →
  ∃ found, layer_breaches t layers = Ok found
    ∧ ∀ layer_name data rule b,
        (layer_name, data) ∈ layers →
        layer_thresholds_of t layer_name = Ok (Some rule) →
        b ∈ layer_breaches_of rule layer_name data →
        b ∈ found.
Proof.
  induction layers as [|[name data] rest IH]; simpl; intros Hwf.
  - exists []. split; [done|]. by intros ???? ?%elem_of_nil.
  - apply andb_true_iff in Hwf as [Hname Hrest].
    apply negb_true_iff in Hname.
    destruct (IH Hrest) as (more & Hmore & Hin).
    destruct (layer_thresholds_of_ok t name Hname) as [found Hfound].
    rewrite Hfound. unfold mbind, result_mbind. simpl.
    rewrite Hmore. simpl. eexists. split; [done|].
    intros n d rule b [Heq | Hr]%elem_of_cons Hrule Hb; apply elem_of_app.
    + injection Heq as -> ->. left. rewrite Hfound in Hrule.
      by injection Hrule as ->.
    + right. by eapply Hin.
Qed.

Lemma layer_breaches_types t layers found b :
  layer_breaches t layers = Ok found → b ∈ found →
  b_level b = "layer"
  ∧ (b_type b = "success_rate" ∨ b_type b = "failed_validations").
Proof.
  revert found. induction layers as [|[name data] rest IH]; intros found; simpl.
  - intros [= <-] ?%elem_of_nil. done.
  - unfold mbind, result_mbind.
    destruct (layer_thresholds_of t name) as [here|]; simpl; [|done].
    destruct (layer_breaches t rest) as [more|]; simpl; [|done].
    intros [= <-] [Hhere | Hmore]%elem_of_app; [|by eapply IH].
    destruct here as [rule|]; [|by apply elem_of_nil in Hhere].
    unfold layer_breaches_of in Hhere.
    apply elem_of_app in Hhere as [Hb | Hb];
      [destruct (Qltb _ _) | destruct (_ <? _)];
      first [ by apply elem_of_nil in Hb
            | apply list_elem_of_singleton in Hb as ->; simpl; auto ].
Qed.

(** The loop over the datasets holds the breaches of every dataset that
    has a rule. *)
Lemma dataset_breaches_complete t datasets dataset_name data rule b :
  (dataset_name, data) ∈ datasets →
  at_datasets t !! dataset_name = Some rule →
  b ∈ dataset_breaches_of rule dataset_name data →
  b ∈ dataset_breaches t datasets.
Proof.
  intros Hin Hrule Hb.
  induction datasets as [|[n d] rest IH]; [by apply elem_of_nil in Hin|].
  simpl. apply elem_of_app.
  apply elem_of_cons in Hin as [Heq | Hrest].
  - injection Heq as <- <-. left. by rewrite Hrule.
  - right. by apply IH.
Qed.

Lemma dataset_breaches_level t datasets b :
  b ∈ dataset_breaches t datasets → b_level b = "dataset".
Proof.
  induction datasets as [|[n d] rest IH]; simpl; [by intros ?%elem_of_nil|].
  intros [Hhere | Hrest]%elem_of_app; [|by apply IH].
  destruct (at_datasets t !! n) as [rule|]; [|by apply elem_of_nil in Hhere].
  unfold dataset_breaches_of in Hhere.
  repeat (apply elem_of_app in Hhere as [Hhere | Hhere]);
    repeat match type of Hhere with
           | _ ∈ (if ?c then _ else _) => destruct c
           end;
    first [ by apply elem_of_nil in Hhere
          | by apply list_elem_of_singleton in Hhere as -> ].
Qed.

Lemma global_breaches_types rule s b :
  b ∈ global_breaches rule s →
  b_level b = "global"
  ∧ (b_type b = "success_rate" ∨ b_type b = "failed_validations").
Proof.
  unfold global_breaches.
  intros [Hb | Hb]%elem_of_app;
    [destruct (Qltb _ _) | destruct (_ <? _)];
    first [ by apply elem_of_nil in Hb
          | apply list_elem_of_singleton in Hb as ->; simpl; auto ].
Qed.

(** A failed-expectations breach is only ever raised for a dataset:
    at the global and the layer scope the failed expectations are not
    compared with the rule. *)
Lemma failed_expectations_only_for_datasets cfg s found b :
  check_thresholds cfg s = Ok found →
  b ∈ found → b_type b = "failed_expectations" → b_level b = "dataset".
Proof.
  unfold check_thresholds, mbind, result_mbind.
  destruct (layer_breaches _ _) as [from_layers|] eqn:Hl; simpl; [|done].
  intros [= <-] Hb Htype.
  apply elem_of_app in Hb as [Hb | Hb].
  - apply global_breaches_types in Hb as [_ [H | H]]; congruence.
  - apply elem_of_app in Hb as [Hb | Hb].
    + destruct (layer_breaches_types _ _ _ _ Hl Hb) as [_ [H | H]]; congruence.
    + by eapply dataset_breaches_level.
Qed.

(** What the code does check of the failed expectations: each dataset
    with a rule whose failed expectations exceed the rule's is
    reported. *)
Lemma failed_expectations_reported_for_datasets cfg s
    (dataset_name : string) (data : dataset_data) rule :
  no_layer_called_datasets (vs_layers s) = true →
  (dataset_name, data) ∈ vs_datasets s →
  at_datasets (thresholds cfg) !! dataset_name = Some rule →
  tr_failed_expectations rule < dd_failed_expectations data →
  ∃ found, check_thresholds cfg s = Ok found
    ∧ failed_expectations_breach dataset_name data rule ∈ found.
Proof.
  intros Hwf Hin Hrule Hgt.
  destruct (layer_breaches_complete (thresholds cfg) _ Hwf)
    as (from_layers & Hl & _).
  unfold check_thresholds, mbind, result_mbind. rewrite Hl. simpl.
  eexists. split; [done|].
  rewrite !elem_of_app. right. right.
  eapply dataset_breaches_complete; [done..|].
  unfold dataset_breaches_of. rewrite !elem_of_app. right. right.
  apply Z.ltb_lt in Hgt. rewrite Hgt. by apply list_elem_of_singleton.
Qed.

(** C5: a dataset whose rule allows no failed validation and whose
    outcome is not a success gets its breach, whatever its success
    rate. *)
Theorem zero_tolerance cfg s (dataset_name : string) (data : dataset_data) rule :
  no_layer_called_datasets (vs_layers s) = true →
  (dataset_name, data) ∈ vs_datasets s →
  at_datasets (thresholds cfg) !! dataset_name = Some rule →
  tr_failed_validations rule = 0 →
  dd_success data = false →
  ∃ found, check_thresholds cfg s = Ok found
    ∧ zero_tolerance_breach dataset_name data ∈ found.
Proof.
  intros Hwf Hin Hrule Hzero Hfail.
  destruct (layer_breaches_complete (thresholds cfg) _ Hwf)
    as (from_layers & Hl & _).
  unfold check_thresholds, mbind, result_mbind. rewrite Hl. simpl.
  eexists. split; [done|].
  rewrite !elem_of_app. right. right.
  eapply dataset_breaches_complete; [done..|].
  unfold dataset_breaches_of. rewrite !elem_of_app. right. left.
  rewrite Hfail, Hzero. simpl. by apply list_elem_of_singleton.
Qed.

(** C3, evaluated on the code: in a run whose every scope is in
    breach, the 100 failed expectations of [orders] exceed the 5 that
    the global rule allows and the 10 that the rule of the bronze layer
    allows, and are reported for the dataset alone: of the six breaches
    returned, the global and the bronze ones are of the success rate and
    of the failed validations only. *)
Theorem failed_expectations_not_checked_above_datasets :
  tr_failed_expectations (at_global (thresholds DEFAULT_CONFIG))
    < dd_failed_expectations orders_in_breach
  ∧ (∃ bronze_rule,
       layer_thresholds_of (thresholds DEFAULT_CONFIG) "bronze"
       = Ok (Some bronze_rule)
       ∧ tr_failed_expectations bronze_rule
         < dd_failed_expectations orders_in_breach)
  ∧ check_thresholds DEFAULT_CONFIG run_in_breach
    = Ok [ {| b_level := "global"; b_layer := None; b_dataset := None;
              b_type := "success_rate";
              b_threshold := 90; b_actual := 75 |};
           {| b_level := "global"; b_layer := None; b_dataset := None;
              b_type := "failed_validations";
              b_threshold := 3; b_actual := 10 |};
           {| b_level := "layer"; b_layer := Some "bronze"; b_dataset := None;
              b_type := "success_rate";
              b_threshold := 85; b_actual := 50 |};
           {| b_level := "layer"; b_layer := Some "bronze"; b_dataset := None;
              b_type := "failed_validations";
              b_threshold := 5; b_actual := 10 |};
           {| b_level := "dataset"; b_layer := Some "bronze";
              b_dataset := Some "orders";
              b_type := "success_rate";
              b_threshold := 95; b_actual := 50 |};
           {| b_level := "dataset"; b_layer := Some "bronze";
              b_dataset := Some "orders";
              b_type := "failed_expectations";
              b_threshold := 3; b_actual := 100 |} ].
Proof.
  split; [done|]. split; [|by vm_compute].
  exists (Build_threshold_rule 85 5 10). split; by vm_compute.
Qed.

Lemma zero_tolerance_dim_customer :
  ∃ found,
    check_thresholds DEFAULT_CONFIG (summary_of "dim_customer" dim_customer_failed)
    = Ok found
    ∧ zero_tolerance_breach "dim_customer" dim_customer_failed ∈ found.
Proof.
  apply (zero_tolerance DEFAULT_CONFIG
           (summary_of "dim_customer" dim_customer_failed)
           "dim_customer" dim_customer_failed (Build_threshold_rule 98 0 1));
    [reflexivity | apply list_elem_of_singleton; reflexivity
    | vm_compute; reflexivity | reflexivity | reflexivity].
Defined.

End ThresholdEvaluator.

(** ** The severity classifier *)

Module SeverityClassifier.
Import AlertManager.

Implicit Types (cfg : config) (levels : alert_severity_levels).
Implicit Types (b : breach) (bs : list breach) (p acc : Q).

Lemma py_max_upper_l acc p : (acc <= py_max acc p)%Q.
Proof.
  unfold py_max. destruct (Qltb acc p) eqn:H.
  - by apply Qlt_le_weak, Qltb_lt.
  - apply Qle_refl.
Qed.

Lemma py_max_upper_r acc p : (p <= py_max acc p)%Q.
Proof.
  unfold py_max. destruct (Qltb acc p) eqn:H.
  - apply Qle_refl.
  - by apply Qltb_ge.
Qed.

Lemma py_max_cases acc p : py_max acc p = acc ∨ py_max acc p = p.
Proof. unfold py_max. destruct (Qltb acc p); auto. Qed.

Lemma py_div_nonzero a d : Qeq_bool d 0 = false → py_div a d = Ok (a / d)%Q.
Proof. intros Hd. unfold py_div. by rewrite Hd. Qed.

(** The loop returns when no success-rate breach has a zero threshold,
    and its value is the greatest of the value it starts from and the
    [percentBelow] of the success-rate breaches. *)
Lemma breach_percentage_from_greatest bs : ∀ acc,
  nonzero_thresholds bs = true →
  ∃ p, breach_percentage_from acc bs = Ok p
    ∧ (acc <= p)%Q
    ∧ (∀ b, b ∈ bs → is_success_rate b → (percent_below b <= p)%Q)
    ∧ (p = acc ∨ ∃ b, b ∈ bs ∧ is_success_rate b ∧ percent_below b = p).
Proof.
  induction bs as [|b rest IH]; intros acc Hnz; simpl.
  - exists acc. repeat split; [apply Qle_refl| |by left].
    by intros ? ?%elem_of_nil.
  - simpl in Hnz. apply andb_true_iff in Hnz as [Hb Hrest].
    destruct (String.eqb (b_type b) "success_rate") eqn:Htype.
    + simpl in Hb. apply negb_true_iff in Hb.
      rewrite (py_div_nonzero _ _ Hb).
      unfold mbind, result_mbind. simpl.
      fold (percent_below b).
      destruct (IH (py_max acc (percent_below b)) Hrest)
        as (p & Hp & Hacc & Hall & Hattained).
      apply String.eqb_eq in Htype.
      exists p. split; [done|]. repeat split.
      * eapply Qle_trans; [apply py_max_upper_l | exact Hacc].
      * intros b' [-> | Hin]%elem_of_cons Hsr.
        -- eapply Qle_trans; [apply py_max_upper_r | exact Hacc].
        -- by apply Hall.
      * destruct Hattained as [-> | (b' & Hin & Hsr & Heq)].
        -- destruct (py_max_cases acc (percent_below b)) as [-> | ->];
             [by left|].
           right. exists b. split; [by left|done].
        -- right. exists b'. split; [by right|done].
    + destruct (IH acc Hrest) as (p & Hp & Hacc & Hall & Hattained).
      exists p. split; [done|]. repeat split; [done| |].
      * intros b' [-> | Hin]%elem_of_cons Hsr; [|by apply Hall].
        unfold is_success_rate in Hsr. apply String.eqb_eq in Hsr. congruence.
      * destruct Hattained as [-> | (b' & Hin & Hsr & Heq)]; [by left|].
        right. exists b'. split; [by right|done].
Qed.

Lemma breach_percentage_greatest bs :
  nonzero_thresholds bs = true →
  ∃ p, breach_percentage_from 0 bs = Ok p ∧ greatest_percent_below bs p.
Proof.
  intros Hnz.
  destruct (breach_percentage_from_greatest bs 0 Hnz)
    as (p & Hp & Hacc & Hall & Hattained).
  exists p. split; [done|]. repeat split; [done..|].
  destruct Hattained as [-> | (b & Hin & Hsr & Heq)]; [by left|].
  right. exists b. by rewrite Heq.
Qed.



(** What [determine_severity] returns on a list whose loop value is
    [p]: nothing for no breach at all, the level chosen for [p]
    otherwise. *)
Lemma determine_severity_of_percentage cfg bs p :
  breach_percentage_from 0 bs = Ok p →
  determine_severity cfg bs
  = Ok (match bs with
        | [] => None
        | _ => classify (severity_levels cfg) p
        end).
Proof.
  intros Hp. unfold determine_severity, mbind, result_mbind.
  destruct bs; [done|]. by rewrite Hp.
Qed.



(** The two severities of the scenario: none for the breach of 5.26
    percent, critical once a breach of 97.9 percent is among them. *)
Lemma severity_of_scenario_C :
  determine_severity DEFAULT_CONFIG [success_rate_breach 95 90] = Ok None
  ∧ determine_severity DEFAULT_CONFIG
      [success_rate_breach 95 90; success_rate_breach 95 2]
    = Ok (Some critical).
Proof. by vm_compute. Qed.

End SeverityClassifier.

(** ** The alert history *)

Module AlertHistory.
Import AlertManager.

Section Save.
Context {Alert : Type}.
Context (alert_get_timestamp : Alert → option string).
Context (cutoff_date_of : Z → option string).

Implicit Types (cfg : config) (history : list Alert).

Lemma py_slice_from_zero history : py_slice_from (- 0) history = history.
Proof.
  unfold py_slice_from. simpl.
  by rewrite Z.min_l by lia.
Qed.

(** [l[-n:]] for a positive [n] is the last [n] elements. *)
Lemma py_slice_from_last (n : Z) history :
  0 < n →
  py_slice_from (- n) history
  = drop (length history - Z.to_nat n) history.
Proof.
  intros Hn. unfold py_slice_from.
  assert ((- n <? 0) = true) as -> by (apply Z.ltb_lt; lia).
  f_equal. lia.
Qed.

(** C8, evaluated on the code: with [max_entries] set to 0 and the
    retention switched off, a save keeps the whole history, however
    long; the slice [[-0:]] that should trim it is the whole list. *)
Theorem save_keeps_all_at_zero_max_entries history (file_writable : bool) :
  alert_history
    (_save_alert_history alert_get_timestamp cutoff_date_of
       (with_history 0 0) file_writable history)
  = history.
Proof.
  unfold _save_alert_history. simpl.
  rewrite py_slice_from_zero.
  by destruct (0 <? Z.of_nat (length history)).
Qed.

(** For a positive [max_entries], a save that computes its cutoff keeps
    the last [max_entries] records, less those older than the cutoff:
    at most [max_entries] of them, none older than the cutoff. *)
Lemma save_trims_history cfg history (file_writable : bool) (cutoff_date : string) :
  0 < max_entries (history_config cfg) →
  0 < retention_days (history_config cfg) →
  cutoff_date_of (retention_days (history_config cfg)) = Some cutoff_date →
  ∃ kept,
    alert_history
      (_save_alert_history alert_get_timestamp cutoff_date_of cfg
         file_writable history) = kept
    ∧ kept = filter (λ alert, recent_enough alert_get_timestamp cutoff_date alert = true)
               (drop (length history
                      - Z.to_nat (max_entries (history_config cfg)))
                     history)
    ∧ Z.of_nat (length kept) ≤ max_entries (history_config cfg)
    ∧ ∀ alert, alert ∈ kept → recent_enough alert_get_timestamp cutoff_date alert = true.
Proof.
  intros Hmax Hret Hcut. eexists. split; [reflexivity|].
  assert (alert_history
            (_save_alert_history alert_get_timestamp cutoff_date_of cfg
               file_writable history)
          = filter (λ alert, recent_enough alert_get_timestamp cutoff_date alert = true)
              (drop (length history
                     - Z.to_nat (max_entries (history_config cfg)))
                    history)) as Hkept.
  { unfold _save_alert_history.
    apply Z.ltb_lt in Hret. rewrite Hret, Hcut. simpl.
    destruct (max_entries (history_config cfg) <? Z.of_nat (length history))
      eqn:Hlen.
    - rewrite py_slice_from_last by done. reflexivity.
    - apply Z.ltb_ge in Hlen.
      replace (length history - Z.to_nat _)%nat with 0%nat by lia.
      reflexivity. }
  split; [done|]. rewrite Hkept. split.
  - etrans; [apply inj_le, length_filter|].
    rewrite length_drop. lia.
  - by intros alert [? _]%list_elem_of_filter.
Qed.

End Save.

(** Three alerts, named by their timestamps, saved under a bound of 0. *)
Lemma save_three_alerts_at_zero_max_entries :
  alert_history
    (_save_alert_history Some (λ _, None) (with_history 0 0) true
       [ "2026-10-01T08:00:00"; "2026-10-02T08:00:00"; "2026-10-03T08:00:00" ])
  = [ "2026-10-01T08:00:00"; "2026-10-02T08:00:00"; "2026-10-03T08:00:00" ].
Proof. reflexivity. Qed.

End AlertHistory.

(** * Further properties *)

(** ** The fingerprints kept by the optimizer *)

Module FingerprintStore.
Import ValidationOptimizer.

(** A name without underscore, followed by an underscore, is read back
    from the front of a key without ambiguity. *)
Lemma underscore_split (a1 a2 b1 b2 : string) :
  no_underscore a1 = true → no_underscore a2 = true →
  a1 +:+ "_" +:+ b1 = a2 +:+ "_" +:+ b2 →
  a1 = a2 ∧ b1 = b2.
Proof.
  revert a2. induction a1 as [|c1 a1 IH]; intros [|c2 a2]; simpl;
    intros H1 H2 Heq.
  - change (String "_" b1 = String "_" b2) in Heq. by injection Heq as ->.
  - change (String "_" b1 = String c2 (a2 +:+ "_" +:+ b2)) in Heq.
    injection Heq as <- _. by rewrite Ascii.eqb_refl in H2.
  - change (String c1 (a1 +:+ "_" +:+ b1) = String "_" b2) in Heq.
    injection Heq as -> _. by rewrite Ascii.eqb_refl in H1.
  - change (String c1 (a1 +:+ "_" +:+ b1) = String c2 (a2 +:+ "_" +:+ b2))
      in Heq.
    apply andb_true_iff in H1 as [_ H1]. apply andb_true_iff in H2 as [_ H2].
    injection Heq as -> Heq.
    by destruct (IH a2 H1 H2 Heq) as [-> ->].
Qed.

Section Store.
Context {ValidationResult Row : Type}.
Implicit Types (cfg : config).
Implicit Types (self : @optimizer ValidationResult) (df : @DataFrame Row).
Implicit Types (layer dataset : string).

Ltac run_decision :=
  unfold _should_validate, _should_validate_traced, row_count_check,
    schema_check, data_hash_check, change_percent_of, count,
    _compute_schema_hash, _compute_data_hash, emit,
    mbind, traced_mbind, mret, traced_ret; simpl.

(** X1: with [skip_unchanged_data] switched off the decision is to
    validate, whatever is stored and whatever the DataFrame. *)
Theorem never_skips_unless_configured cfg self df layer dataset :
  skip_unchanged_data (selective_validation cfg) = false →
  _should_validate cfg self df layer dataset = true.
Proof.
  intros Hskip. run_decision. rewrite Hskip.
  repeat case_match; simplify_eq/=; done.
Qed.

(** X2: after the metadata of a DataFrame was recorded for a key, a
    later call for that key that observes the same row count, the same
    schema hash and the same data hash is skipped, whatever was stored
    for the key before: the row count is positive, the threshold is not
    negative and skipping is enabled. (Above 1000 rows the data hash of
    the later call is taken on a fresh random sample; that it comes out
    the same is a hypothesis.) *)
Theorem recorded_then_unchanged_is_skipped cfg self df (later : @DataFrame Row)
    layer dataset :
  sv_enabled (selective_validation cfg) = true →
  skip_unchanged_data (selective_validation cfg) = true →
  0 < df_count df →
  (0 <= row_count_threshold (selective_validation cfg))%Q →
  df_count later = df_count df →
  df_schema_hash later = df_schema_hash df →
  df_data_hash later = df_data_hash df →
  _should_validate cfg (_update_data_metadata self df layer dataset)
    later layer dataset = false.
Proof.
  intros Hen Hskip Hpos Hthr Hcount Hschema Hdata.
  assert (Qleb (int_quotient (Z.abs (df_count df - df_count df)) (df_count df))
               (row_count_threshold (selective_validation cfg)) = true) as Hq.
  { apply Qleb_le. by rewrite Z.sub_diag, int_quotient_zero. }
  apply Z.ltb_lt in Hpos. run_decision.
  rewrite Hen, Hskip, !lookup_insert_eq, Hpos, Hcount, Hschema, Hdata. simpl.
  rewrite Hq. simpl.
  rewrite !bool_decide_eq_false_2 by (intros ?; done).
  by destruct (check_row_count_changes _), (check_schema_changes _),
    (check_data_hash _).
Qed.

(** X3: recording the metadata of one (layer, dataset) leaves the
    decisions about every other (layer, dataset) as they were, operations
    included, as long as the layer names hold no underscore. *)
Theorem other_keys_undisturbed cfg self df (other : @DataFrame Row)
    layer dataset (layer' dataset' : string) :
  no_underscore layer = true → no_underscore layer' = true →
  (layer, dataset) ≠ (layer', dataset') →
  _should_validate_traced cfg (_update_data_metadata self df layer dataset)
    other layer' dataset'
  = _should_validate_traced cfg self other layer' dataset'.
Proof.
  intros Hl Hl' Hne.
  assert (dataset_key layer dataset ≠ dataset_key layer' dataset') as Hkey.
  { intros Heq. apply Hne.
    by destruct (underscore_split _ _ _ _ Hl Hl' Heq) as [-> ->]. }
  unfold _should_validate_traced, row_count_check, schema_check,
    data_hash_check. simpl.
  by rewrite !lookup_insert_ne.
Qed.

(** X4: a decision to skip stays a decision to skip when the
    [row_count_threshold] is raised. *)
Theorem larger_threshold_keeps_skip cfg self df layer dataset (t1 t2 : Q) :
  (t1 <= t2)%Q →
  _should_validate (with_row_count_threshold cfg t1) self df layer dataset
  = false →
  _should_validate (with_row_count_threshold cfg t2) self df layer dataset
  = false.
Proof.
  intros Hle. run_decision.
  destruct (sv_enabled _); simpl; [|done].
  destruct (check_row_count_changes _); simpl; [|done].
  destruct (row_counts self !! _) as [prev|]; simpl; [|done].
  destruct (0 <? prev); simpl; [|done].
  destruct (Qleb _ t1) eqn:H1; simpl; [|done].
  assert (Qleb (int_quotient (Z.abs (df_count df - prev)) prev) t2
          = true) as ->; [|done].
  apply Qleb_le. apply Qleb_le in H1. by eapply Qle_trans.
Qed.

(** X5: when the row count has changed by more than the threshold, the
    change being the double that the code computes, the decision to
    validate is taken on the count alone: neither hash is computed. *)
Theorem row_count_change_short_circuits cfg self df layer dataset
    (previous_row_count : Z) :
  sv_enabled (selective_validation cfg) = true →
  check_row_count_changes (selective_validation cfg) = true →
  row_counts self !! dataset_key layer dataset = Some previous_row_count →
  0 < previous_row_count →
  (row_count_threshold (selective_validation cfg)
     < relative_change (df_count df) previous_row_count)%Q →
  _should_validate_traced cfg self df layer dataset
  = (true,
     [ EvCount;
       EvDivide (Z.abs (df_count df - previous_row_count)) previous_row_count ]).
Proof.
  intros Hen Hrc Hprev Hpos Hgt. run_decision.
  apply Z.ltb_lt in Hpos. rewrite Hen, Hrc, Hprev, Hpos. simpl.
  apply Qleb_gt in Hgt. unfold relative_change in Hgt. by rewrite Hgt.
Qed.

End Store.

Lemma never_skips_unless_configured_orders :
  _should_validate skip_disabled (recorded (orders 100000 hashed))
    (orders 100000 hashed) "bronze" "orders" = true.
Proof.
  apply (never_skips_unless_configured skip_disabled
           (recorded (orders 100000 hashed)) (orders 100000 hashed)
           "bronze" "orders"); reflexivity.
Defined.

Lemma recorded_then_unchanged_is_skipped_orders :
  _should_validate DEFAULT_CONFIG
    (_update_data_metadata (@init unit) (orders 100000 hashed) "bronze" "orders")
    (orders 100000 hashed) "bronze" "orders" = false.
Proof.
  apply (recorded_then_unchanged_is_skipped DEFAULT_CONFIG (@init unit)
           (orders 100000 hashed) (orders 100000 hashed) "bronze" "orders");
    [reflexivity | reflexivity | reflexivity | by vm_compute
    | reflexivity | reflexivity | reflexivity].
Defined.

Lemma other_keys_undisturbed_orders :
  _should_validate_traced DEFAULT_CONFIG
    (_update_data_metadata (@init unit) (orders 100000 hashed) "bronze" "orders")
    (orders 250 hashed) "silver" "orders"
  = _should_validate_traced DEFAULT_CONFIG (@init unit)
      (orders 250 hashed) "silver" "orders".
Proof.
  apply (other_keys_undisturbed DEFAULT_CONFIG (@init unit)
           (orders 100000 hashed) (orders 250 hashed)
           "bronze" "orders" "silver" "orders");
    [reflexivity | reflexivity | discriminate].
Defined.

Lemma larger_threshold_keeps_skip_orders :
  _should_validate (with_row_count_threshold DEFAULT_CONFIG (10 # 100))
    (recorded (orders 100000 hashed)) (orders 103000 hashed) "bronze" "orders"
  = false.
Proof.
  apply (larger_threshold_keeps_skip DEFAULT_CONFIG
           (recorded (orders 100000 hashed)) (orders 103000 hashed)
           "bronze" "orders" (5 # 100) (10 # 100));
    [discriminate | reflexivity].
Defined.

Lemma row_count_change_short_circuits_orders :
  _should_validate_traced DEFAULT_CONFIG (recorded (orders 100000 hashed))
    (orders 125000 None) "bronze" "orders"
  = (true, [EvCount; EvDivide 25000 100000]).
Proof.
  apply (row_count_change_short_circuits DEFAULT_CONFIG
           (recorded (orders 100000 hashed)) (orders 125000 None)
           "bronze" "orders" 100000); reflexivity.
Defined.

End FingerprintStore.

(** ** The sampling of large DataFrames *)

Module SamplingPlan.
Import ValidationOptimizer.




Section Plan.
Context {Row GroupKey : Type}.
Context (spark_sample : Q → list Row → result (list Row)).
Context (monotonically_increasing_id : list Row → list Z).
Context (df_columns : @DataFrame Row → list string).
Context (spark_group_keys : list string → list Row → list GroupKey).
Context (spark_sampleBy :
  list string → list (GroupKey * Q) → list Row → result (list Row)).

Implicit Types (cfg : config) (df : @DataFrame Row).




(** X8: a sampling method that is none of random, systematic and
    stratified is served as the random method. *)
Theorem unknown_method_is_random cfg df :
  sampling_method (sampling cfg) ≠ "random" →
  sampling_method (sampling cfg) ≠ "systematic" →
  sampling_method (sampling cfg) ≠ "stratified" →
  _apply_sampling spark_sample monotonically_increasing_id df_columns
    spark_group_keys spark_sampleBy cfg df
  = _apply_sampling spark_sample monotonically_increasing_id df_columns
      spark_group_keys spark_sampleBy (with_sampling_method cfg "random") df.
Proof.
  intros Hr%String.eqb_neq Hs%String.eqb_neq Ht%String.eqb_neq.
  unfold _apply_sampling. simpl. by rewrite Hr, Hs, Ht.
Qed.

(** X9: the stratified method, when none of the configured columns is a
    column of the DataFrame (or none is configured), is served as the
    random method. *)
Theorem stratified_without_columns_is_random cfg df :
  sampling_method (sampling cfg) = "stratified" →
  Forall (λ col, col ∉ df_columns df) (stratify_columns (sampling cfg)) →
  _apply_sampling spark_sample monotonically_increasing_id df_columns
    spark_group_keys spark_sampleBy cfg df
  = _apply_sampling spark_sample monotonically_increasing_id df_columns
      spark_group_keys spark_sampleBy (with_sampling_method cfg "random") df.
Proof.
  intros Hmethod Hnone. unfold _apply_sampling. simpl. rewrite Hmethod. simpl.
  assert (filter (λ col, col ∈ df_columns df) (stratify_columns (sampling cfg))
          = []) as ->.
  { induction Hnone as [|col cols Hcol _ IH]; [done|].
    by rewrite filter_cons_False. }
  by destruct (stratify_columns (sampling cfg)).
Qed.

End Plan.



Lemma unknown_method_is_random_two_million :
  _apply_sampling (λ _ rows, Ok rows) (λ rows, []) (λ _, []) (λ _ _, [])
    (λ _ (_ : list (unit * Q)) rows, Ok rows)
    (with_sampling_method DEFAULT_CONFIG "reservoir") (counted 2000000)
  = _apply_sampling (λ _ rows, Ok rows) (λ rows, []) (λ _, []) (λ _ _, [])
      (λ _ (_ : list (unit * Q)) rows, Ok rows)
      (with_sampling_method (with_sampling_method DEFAULT_CONFIG "reservoir")
         "random")
      (counted 2000000).
Proof.
  apply (unknown_method_is_random (λ _ rows, Ok rows) (λ rows, []) (λ _, [])
           (λ _ _, []) (λ _ (_ : list (unit * Q)) rows, Ok rows)
           (with_sampling_method DEFAULT_CONFIG "reservoir")
           (counted 2000000)); discriminate.
Defined.

Lemma stratified_without_columns_is_random_two_million :
  _apply_sampling (λ _ rows, Ok rows) (λ rows, [])
    (λ _, ["order_id"; "total"])
    (λ _ _, []) (λ _ (_ : list (unit * Q)) rows, Ok rows)
    stratified_config (counted 2000000)
  = _apply_sampling (λ _ rows, Ok rows) (λ rows, [])
      (λ _, ["order_id"; "total"])
      (λ _ _, []) (λ _ (_ : list (unit * Q)) rows, Ok rows)
      (with_sampling_method stratified_config "random") (counted 2000000).
Proof.
  apply (stratified_without_columns_is_random (λ _ rows, Ok rows) (λ rows, [])
           (λ _, ["order_id"; "total"]) (λ _ _, [])
           (λ _ (_ : list (unit * Q)) rows, Ok rows)
           stratified_config (counted 2000000)); [reflexivity|].
  apply (bool_decide_unpack _). vm_compute. exact I.
Defined.

End SamplingPlan.

(** ** Lookups in the result cache *)

Module CacheLookup.
Import ValidationOptimizer.

Section Lookup.
Context {ValidationResult : Type}.
Implicit Types (cfg : config) (self : @optimizer ValidationResult).
Implicit Types (layer dataset suite : string) (result : ValidationResult).

(** X10: an outcome served by a [get] at some time is served by a [get]
    of the same key at any earlier time: entries only expire. *)
Theorem hit_also_earlier cfg self (earlier later : Q) layer dataset suite result :
  (earlier <= later)%Q →
  _get_cached_result cfg self later layer dataset suite = Some result →
  _get_cached_result cfg self earlier layer dataset suite = Some result.
Proof.
  intros Hle. unfold _get_cached_result.
  destruct (negb _); [done|].
  destruct (cache self !! _) as [entry|]; [|done].
  destruct (Qltb _ (later - _)) eqn:Hlater; [done|].
  intros Hhit.
  assert (Qltb (ttl_seconds (caching cfg)) (earlier - ce_timestamp entry)
          = false) as ->; [|done].
  apply Qltb_ge. apply Qltb_ge in Hlater.
  eapply Qle_trans; [|exact Hlater].
  apply Qplus_le_compat; [done | apply Qle_refl].
Qed.

End Lookup.

(** X11: the cache key tells the layer, the dataset and the suite apart
    as long as neither the layer nor the dataset holds an underscore. *)
Theorem cache_key_injective (layer dataset suite layer' dataset' suite' : string) :
  no_underscore layer = true → no_underscore layer' = true →
  no_underscore dataset = true → no_underscore dataset' = true →
  cache_key layer dataset suite = cache_key layer' dataset' suite' →
  layer = layer' ∧ dataset = dataset' ∧ suite = suite'.
Proof.
  intros Hl Hl' Hd Hd' Heq. unfold cache_key in Heq.
  destruct (FingerprintStore.underscore_split _ _ _ _ Hl Hl' Heq) as [-> Hrest].
  by destruct (FingerprintStore.underscore_split _ _ _ _ Hd Hd' Hrest)
    as [-> ->].
Qed.

(** With an underscore in the name of a dataset, as in [user_activity],
    two different pairs of dataset and suite share a key. *)
Lemma cache_key_collision :
  cache_key "bronze" "user" "activity_suite"
  = cache_key "bronze" "user_activity" "suite".
Proof. reflexivity. Qed.

Lemma hit_also_earlier_orders :
  _get_cached_result DEFAULT_CONFIG cached_at_zero 60
    "bronze" "orders" "orders_suite" = Some true.
Proof.
  apply (hit_also_earlier DEFAULT_CONFIG cached_at_zero 60 3600
           "bronze" "orders" "orders_suite" true);
    [discriminate | vm_compute; reflexivity].
Defined.

Lemma cache_key_injective_orders :
  "bronze" = "bronze" ∧ "orders" = "orders" ∧ "nightly" = "nightly".
Proof.
  apply (cache_key_injective "bronze" "orders" "nightly"
           "bronze" "orders" "nightly"); reflexivity.
Defined.

End CacheLookup.

(** ** The list of breaches *)

Module BreachList.
Import AlertManager.

Implicit Types (cfg : config) (t : alert_thresholds) (s : validation_summary).
Implicit Types (rule : threshold_rule) (b : breach) (found : list breach).

(** What is known of a breach taken from a list built by the
    conditionals of [check_thresholds]. *)
Ltac breach_cases H Hcond :=
  repeat (apply elem_of_app in H as [H | H]);
  match type of H with
  | _ ∈ (if ?c then _ else _) => destruct c eqn:Hcond
  end;
  first [ by apply elem_of_nil in H
        | apply list_elem_of_singleton in H as -> ].

Lemma Zltb_Qlt (x y : Z) : (x <? y) = true → (inject_Z x < inject_Z y)%Q.
Proof. intros H%Z.ltb_lt. by rewrite <- Zlt_Qlt. Qed.

Lemma global_breaches_sound rule s b :
  b ∈ global_breaches rule s →
  out_of_bounds b
  ∧ b_level b = "global"
  ∧ (is_success_rate b → b_actual b = vs_success_rate s).
Proof.
  unfold global_breaches. intros Hb. breach_cases Hb Hcond;
    unfold out_of_bounds, is_success_rate; simpl;
    (split; [first [by apply Qltb_lt | by apply Zltb_Qlt] | done]).
Qed.

Lemma layer_breaches_of_sound rule (layer_name : string) (data : layer_data) b :
  b ∈ layer_breaches_of rule layer_name data →
  out_of_bounds b
  ∧ b_level b = "layer" ∧ b_layer b = Some layer_name
  ∧ (is_success_rate b → b_actual b = ld_rate data).
Proof.
  unfold layer_breaches_of. intros Hb. breach_cases Hb Hcond;
    unfold out_of_bounds, is_success_rate; simpl;
    (split; [first [by apply Qltb_lt | by apply Zltb_Qlt] | done]).
Qed.

Lemma dataset_breaches_of_sound rule (dataset_name : string)
    (data : dataset_data) b :
  b ∈ dataset_breaches_of rule dataset_name data →
  out_of_bounds b
  ∧ b_level b = "dataset" ∧ b_dataset b = Some dataset_name
  ∧ b_layer b = Some (dd_layer data)
  ∧ (is_success_rate b → b_actual b = dd_success_rate data).
Proof.
  unfold dataset_breaches_of. intros Hb. breach_cases Hb Hcond;
    unfold out_of_bounds, is_success_rate; simpl;
    (split; [first [by apply Qltb_lt | by apply Zltb_Qlt | idtac] | done]).
  apply andb_true_iff in Hcond as [_ ->%Z.eqb_eq]. done.
Qed.

(** Where a breach of the loop over the layers comes from. *)
Lemma layer_breaches_origin t layers found b :
  layer_breaches t layers = Ok found → b ∈ found →
  ∃ layer_name data rule,
    (layer_name, data) ∈ layers
    ∧ layer_thresholds_of t layer_name = Ok (Some rule)
    ∧ b ∈ layer_breaches_of rule layer_name data.
Proof.
  revert found. induction layers as [|[name data] rest IH]; intros found; simpl.
  - intros [= <-] ?%elem_of_nil. done.
  - unfold mbind, result_mbind.
    destruct (layer_thresholds_of t name) as [here|] eqn:Hhere; simpl; [|done].
    destruct (layer_breaches t rest) as [more|]; simpl; [|done].
    intros [= <-] [Hb | Hb]%elem_of_app.
    + destruct here as [rule|]; [|by apply elem_of_nil in Hb].
      exists name, data, rule. split; [by left|done].
    + destruct (IH more eq_refl Hb) as (n & d & rule & Hin & Hrule & Hof).
      exists n, d, rule. split; [by right|done].
Qed.

(** Where a breach of the loop over the datasets comes from. *)
Lemma dataset_breaches_origin t datasets b :
  b ∈ dataset_breaches t datasets →
  ∃ dataset_name data rule,
    (dataset_name, data) ∈ datasets
    ∧ at_datasets t !! dataset_name = Some rule
    ∧ b ∈ dataset_breaches_of rule dataset_name data.
Proof.
  induction datasets as [|[name data] rest IH]; simpl;
    [by intros ?%elem_of_nil|].
  intros [Hb | Hb]%elem_of_app.
  - destruct (at_datasets t !! name) as [rule|] eqn:Hrule;
      [|by apply elem_of_nil in Hb].
    exists name, data, rule. split; [by left|done].
  - destruct (IH Hb) as (n & d & rule & Hin & Hrule & Hof).
    exists n, d, rule. split; [by right|done].
Qed.

(** The three origins of a returned breach. *)
Lemma check_thresholds_origin cfg s found b :
  check_thresholds cfg s = Ok found → b ∈ found →
  b ∈ global_breaches (at_global (thresholds cfg)) s
  ∨ (∃ layer_name data rule,
       (layer_name, data) ∈ vs_layers s
       ∧ layer_thresholds_of (thresholds cfg) layer_name = Ok (Some rule)
       ∧ b ∈ layer_breaches_of rule layer_name data)
  ∨ (∃ dataset_name data rule,
       (dataset_name, data) ∈ vs_datasets s
       ∧ at_datasets (thresholds cfg) !! dataset_name = Some rule
       ∧ b ∈ dataset_breaches_of rule dataset_name data).
Proof.
  unfold check_thresholds, mbind, result_mbind.
  destruct (layer_breaches _ _) as [from_layers|] eqn:Hl; simpl; [|done].
  intros [= <-] [Hb | [Hb | Hb]%elem_of_app]%elem_of_app.
  - by left.
  - right. left. by eapply layer_breaches_origin.
  - right. right. by apply dataset_breaches_origin.
Qed.

(** A success-rate breach that is returned is below its threshold. *)
Lemma success_rate_breach_below_threshold cfg s found b :
  check_thresholds cfg s = Ok found → b ∈ found → is_success_rate b →
  (b_actual b < b_threshold b)%Q.
Proof.
  intros Hfound Hb Hsr.
  assert (out_of_bounds b) as Hout.
  { destruct (check_thresholds_origin _ _ _ _ Hfound Hb)
      as [Hg | [(n & d & rule & _ & _ & Hof) | (n & d & rule & _ & _ & Hof)]].
    - by apply global_breaches_sound in Hg as [? _].
    - by apply layer_breaches_of_sound in Hof as [? _].
    - by apply dataset_breaches_of_sound in Hof as [? _]. }
  unfold out_of_bounds in Hout. unfold is_success_rate in Hsr.
  by rewrite Hsr in Hout.
Qed.

(** X12: no false alarm: every breach returned reports a success rate
    strictly below its threshold, or a count strictly above it. *)
Theorem breaches_are_out_of_bounds cfg s found b :
  check_thresholds cfg s = Ok found → b ∈ found → out_of_bounds b.
Proof.
  intros Hfound Hb.
  destruct (check_thresholds_origin _ _ _ _ Hfound Hb)
    as [Hg | [(n & d & rule & _ & _ & Hof) | (n & d & rule & _ & _ & Hof)]].
  - by apply global_breaches_sound in Hg as [? _].
  - by apply layer_breaches_of_sound in Hof as [? _].
  - by apply dataset_breaches_of_sound in Hof as [? _].
Qed.

(** X13: a breach returned at the layer level names a layer of the
    summary that has a rule, and a breach returned at the dataset level
    names a dataset of the summary that has a rule, with the layer the
    summary gives it; a layer or dataset without a rule is never
    reported. *)
Theorem breaches_name_configured_scopes cfg s found b :
  check_thresholds cfg s = Ok found → b ∈ found →
  b_level b = "global"
  ∨ (∃ layer_name data rule,
       b_level b = "layer" ∧ b_layer b = Some layer_name
       ∧ (layer_name, data) ∈ vs_layers s
       ∧ layer_thresholds_of (thresholds cfg) layer_name = Ok (Some rule))
  ∨ (∃ dataset_name data rule,
       b_level b = "dataset" ∧ b_dataset b = Some dataset_name
       ∧ b_layer b = Some (dd_layer data)
       ∧ (dataset_name, data) ∈ vs_datasets s
       ∧ at_datasets (thresholds cfg) !! dataset_name = Some rule).
Proof.
  intros Hfound Hb.
  destruct (check_thresholds_origin _ _ _ _ Hfound Hb)
    as [Hg | [(n & d & rule & Hin & Hrule & Hof)
             | (n & d & rule & Hin & Hrule & Hof)]].
  - left. by apply global_breaches_sound in Hg as (_ & ? & _).
  - right. left. apply layer_breaches_of_sound in Hof as (_ & ? & ? & _).
    by exists n, d, rule.
  - right. right.
    apply dataset_breaches_of_sound in Hof as (_ & ? & ? & ? & _).
    by exists n, d, rule.
Qed.

Lemma layer_breaches_raises t layers :
  no_layer_called_datasets layers = false →
  ∃ e, layer_breaches t layers = Raise e.
Proof.
  induction layers as [|[name data] rest IH]; simpl; [done|].
  intros Hwf. unfold mbind, result_mbind.
  destruct (String.eqb name "datasets") eqn:Hname; simpl in Hwf.
  - apply String.eqb_eq in Hname as ->. unfold layer_thresholds_of. simpl.
    destruct (at_datasets t !! "success_rate"); by eexists.
  - destruct (layer_thresholds_of t name); simpl; [|by eexists].
    destruct (IH Hwf) as [e ->]. by eexists.
Qed.

(** X14: [check_thresholds] raises exactly when the summary has a layer
    called ["datasets"]; whatever the global scope and the other layers
    would have reported is then lost. *)
Theorem check_thresholds_raises_iff cfg s :
  (∃ e, check_thresholds cfg s = Raise e)
  ↔ no_layer_called_datasets (vs_layers s) = false.
Proof.
  unfold check_thresholds, mbind, result_mbind. split.
  - intros [e He].
    destruct (no_layer_called_datasets (vs_layers s)) eqn:Hwf; [|done].
    destruct (ThresholdEvaluator.layer_breaches_complete (thresholds cfg) _ Hwf)
      as (from_layers & Hl & _).
    by rewrite Hl in He.
  - intros Hwf.
    destruct (layer_breaches_raises (thresholds cfg) _ Hwf) as [e ->].
    by eexists.
Qed.

Lemma breaches_are_out_of_bounds_orders :
  out_of_bounds
    (failed_expectations_breach "orders" orders_failed
       (Build_threshold_rule 95 1 3)).
Proof.
  apply (breaches_are_out_of_bounds DEFAULT_CONFIG
           (summary_of "orders" orders_failed)
           [ failed_expectations_breach "orders" orders_failed
               (Build_threshold_rule 95 1 3) ]);
    [vm_compute; reflexivity | apply list_elem_of_singleton; reflexivity].
Defined.

Lemma breaches_name_configured_scopes_dim_customer :
  b_level (zero_tolerance_breach "dim_customer" dim_customer_failed) = "global"
  ∨ (∃ layer_name data rule,
       b_level (zero_tolerance_breach "dim_customer" dim_customer_failed)
       = "layer"
       ∧ b_layer (zero_tolerance_breach "dim_customer" dim_customer_failed)
         = Some layer_name
       ∧ (layer_name, data)
         ∈ vs_layers (summary_of "dim_customer" dim_customer_failed)
       ∧ layer_thresholds_of (thresholds DEFAULT_CONFIG) layer_name
         = Ok (Some rule))
  ∨ (∃ dataset_name data rule,
       b_level (zero_tolerance_breach "dim_customer" dim_customer_failed)
       = "dataset"
       ∧ b_dataset (zero_tolerance_breach "dim_customer" dim_customer_failed)
         = Some dataset_name
       ∧ b_layer (zero_tolerance_breach "dim_customer" dim_customer_failed)
         = Some (dd_layer data)
       ∧ (dataset_name, data)
         ∈ vs_datasets (summary_of "dim_customer" dim_customer_failed)
       ∧ at_datasets (thresholds DEFAULT_CONFIG) !! dataset_name = Some rule).
Proof.
  apply (breaches_name_configured_scopes DEFAULT_CONFIG
           (summary_of "dim_customer" dim_customer_failed)
           [ zero_tolerance_breach "dim_customer" dim_customer_failed ]);
    [vm_compute; reflexivity | apply list_elem_of_singleton; reflexivity].
Defined.

End BreachList.

(** ** The loop of the severity *)

Module SeverityLoop.
Import AlertManager.

Implicit Types (cfg : config) (s : validation_summary).
Implicit Types (b : breach) (bs found : list breach) (acc p : Q).

Lemma loop_raises bs :
  nonzero_thresholds bs = false →
  ∀ acc, breach_percentage_from acc bs = Raise ZeroDivisionError.
Proof.
  induction bs as [|b rest IH]; simpl; [done|].
  intros Hnz acc.
  destruct (String.eqb (b_type b) "success_rate"); simpl in Hnz.
  - unfold py_div. destruct (Qeq_bool (b_threshold b) 0); simpl in Hnz; [done|].
    unfold mbind, result_mbind. simpl. by apply IH.
  - by apply IH.
Qed.

(** X15: [determine_severity] raises, and then a division by zero,
    exactly when one of the success-rate breaches it is given has a
    threshold of zero. *)
Theorem determine_severity_raises_iff cfg bs :
  determine_severity cfg bs = Raise ZeroDivisionError
  ↔ nonzero_thresholds bs = false.
Proof.
  split.
  - intros Hraise.
    destruct (nonzero_thresholds bs) eqn:Hnz; [|done].
    destruct (SeverityClassifier.breach_percentage_greatest bs Hnz)
      as (p & Hp & _).
    by rewrite (SeverityClassifier.determine_severity_of_percentage _ _ _ Hp)
      in Hraise.
  - intros Hnz. unfold determine_severity.
    destruct bs as [|b rest]; [done|].
    by rewrite (loop_raises _ Hnz).
Qed.

(** X16: the breaches of failed validations and of failed expectations
    weigh nothing in the breach percentage: the loop gives the same on
    the success-rate breaches alone. *)
Theorem percentage_ignores_other_kinds acc bs :
  breach_percentage_from acc bs
  = breach_percentage_from acc (filter is_success_rate bs).
Proof.
  revert acc. induction bs as [|b rest IH]; intros acc; [done|].
  simpl. destruct (String.eqb (b_type b) "success_rate") eqn:Htype.
  - apply String.eqb_eq in Htype.
    rewrite filter_cons_True by done. simpl.
    apply String.eqb_eq in Htype. rewrite Htype.
    destruct (py_div _ _); [|done].
    unfold mbind, result_mbind. simpl. apply IH.
  - apply String.eqb_neq in Htype.
    rewrite filter_cons_False by done. apply IH.
Qed.

Lemma percent_below_range b :
  (0 <= b_actual b)%Q → (b_actual b < b_threshold b)%Q →
  (percent_below b <= 100)%Q.
Proof.
  intros Hpos Hlt. unfold percent_below.
  assert (0 < b_threshold b)%Q as Ht by (by eapply Qle_lt_trans).
  assert ((b_threshold b - b_actual b) / b_threshold b <= 1)%Q as Hratio.
  { apply Qle_shift_div_r; [done|]. rewrite Qmult_1_l.
    rewrite <- (Qplus_0_r (b_threshold b)) at 2.
    apply Qplus_le_compat; [apply Qle_refl|].
    apply (Qopp_le_compat 0). done. }
  apply (Qmult_le_compat_r _ _ 100) in Hratio; [|done].
  by rewrite Qmult_1_l in Hratio.
Qed.

(** The success-rate breaches returned report a rate of the summary. *)
Lemma success_rate_breach_of_summary cfg s found b :
  check_thresholds cfg s = Ok found → b ∈ found → is_success_rate b →
  b_actual b ∈ summary_rates s.
Proof.
  intros Hfound Hb Hsr. unfold summary_rates.
  destruct (BreachList.check_thresholds_origin _ _ _ _ Hfound Hb)
    as [Hg | [(n & d & rule & Hin & _ & Hof) | (n & d & rule & Hin & _ & Hof)]].
  - apply BreachList.global_breaches_sound in Hg as (_ & _ & ->); [|done].
    by left.
  - apply BreachList.layer_breaches_of_sound in Hof as (_ & _ & _ & ->);
      [|done].
    right. apply elem_of_app. left.
    apply list_elem_of_fmap. by exists (n, d).
  - apply BreachList.dataset_breaches_of_sound in Hof as (_ & _ & _ & _ & ->);
      [|done].
    right. apply elem_of_app. right.
    apply list_elem_of_fmap. by exists (n, d).
Qed.

(** X17: on the breaches that [check_thresholds] returns for a summary
    without negative rate, the loop of [determine_severity] divides by
    no zero and ends on a percentage between 0 and 100. *)
Theorem percentage_of_checked_breaches cfg s :
  no_layer_called_datasets (vs_layers s) = true →
  rates_nonnegative s = true →
  ∃ found p,
    check_thresholds cfg s = Ok found
    ∧ breach_percentage_from 0 found = Ok p
    ∧ (0 <= p)%Q ∧ (p <= 100)%Q.
Proof.
  intros Hwf Hrates.
  assert (∃ found, check_thresholds cfg s = Ok found) as [found Hfound].
  { destruct (ThresholdEvaluator.layer_breaches_complete (thresholds cfg) _ Hwf)
      as (from_layers & Hl & _).
    unfold check_thresholds, mbind, result_mbind. rewrite Hl. by eexists. }
  assert (∀ b, b ∈ found → is_success_rate b →
            (0 <= b_actual b)%Q ∧ (b_actual b < b_threshold b)%Q) as Hrange.
  { intros b Hb Hsr. split.
    - pose proof (success_rate_breach_of_summary _ _ _ _ Hfound Hb Hsr) as Hin.
      unfold rates_nonnegative in Hrates.
      rewrite forallb_forall in Hrates.
      apply Qleb_le, Hrates. by apply list_elem_of_In.
    - by eapply BreachList.success_rate_breach_below_threshold. }
  assert (nonzero_thresholds found = true) as Hnz.
  { unfold nonzero_thresholds. apply forallb_forall.
    intros b Hb%list_elem_of_In.
    destruct (String.eqb (b_type b) "success_rate") eqn:Htype; [|done].
    apply String.eqb_eq in Htype. simpl.
    destruct (Hrange b Hb Htype) as [Hpos Hlt].
    apply negb_true_iff, not_true_is_false. intros Hzero%Qeq_bool_iff.
    rewrite Hzero in Hlt. by apply (Qlt_not_le _ _ Hlt). }
  destruct (SeverityClassifier.breach_percentage_from_greatest found 0 Hnz)
    as (p & Hp & Hacc & _ & Hattained).
  exists found, p. split; [done|]. split; [done|]. split; [done|].
  destruct Hattained as [-> | (b & Hb & Hsr & <-)]; [done|].
  destruct (Hrange b Hb Hsr). by apply percent_below_range.
Qed.

(** X23: the summary of a reporter that has seen no validation yet
    breaches the global success rate of every configuration that asks
    for a positive one, and the loop of [determine_severity] puts the
    breaches found at 100 percent. *)
Theorem empty_summary_alarms cfg :
  (0 < tr_success_rate (at_global (thresholds cfg)))%Q →
  ∃ found p,
    check_thresholds cfg initial_summary = Ok found
    ∧ {| b_level := "global"; b_layer := None; b_dataset := None;
         b_type := "success_rate";
         b_threshold := tr_success_rate (at_global (thresholds cfg));
         b_actual := 0 |} ∈ found
    ∧ breach_percentage_from 0 found = Ok p
    ∧ (p == 100)%Q.
Proof.
  intros Hpos.
  destruct (ThresholdEvaluator.layer_breaches_complete (thresholds cfg)
              (vs_layers initial_summary) eq_refl)
    as (from_layers & Hl & _).
  assert (∃ found, check_thresholds cfg initial_summary = Ok found)
    as [found Hfound].
  { unfold check_thresholds, mbind, result_mbind. rewrite Hl. by eexists. }
  set (g := {| b_level := "global"; b_layer := None; b_dataset := None;
               b_type := "success_rate";
               b_threshold := tr_success_rate (at_global (thresholds cfg));
               b_actual := 0 |}).
  assert (g ∈ found) as Hg.
  { revert Hfound. unfold check_thresholds, mbind, result_mbind.
    rewrite Hl. simpl. intros [= <-].
    apply elem_of_app. left. unfold global_breaches. simpl.
    apply Qltb_lt in Hpos. rewrite Hpos. by left. }
  assert (∀ b, b ∈ found → is_success_rate b → (percent_below b == 100)%Q)
    as Hfull.
  { intros b Hb Hsr.
    pose proof (success_rate_breach_of_summary _ _ _ _ Hfound Hb Hsr) as Hin.
    pose proof (BreachList.success_rate_breach_below_threshold
                  _ _ _ _ Hfound Hb Hsr) as Hout.
    assert (b_actual b = 0%Q) as Hzero.
    { unfold summary_rates in Hin. simpl in Hin.
      repeat (apply elem_of_cons in Hin as [Hin | Hin]; [done|]).
      by apply elem_of_nil in Hin. }
    unfold percent_below. rewrite Hzero in *. field.
    intros H0. rewrite H0 in Hout. by apply Qlt_irrefl in Hout. }
  assert (nonzero_thresholds found = true) as Hnz.
  { unfold nonzero_thresholds. apply forallb_forall.
    intros b Hb%list_elem_of_In.
    destruct (String.eqb (b_type b) "success_rate") eqn:Htype; [|done].
    simpl. apply negb_true_iff, not_true_is_false. intros Hzero%Qeq_bool_iff.
    pose proof (BreachList.success_rate_breach_below_threshold
                  _ _ _ _ Hfound Hb (proj1 (String.eqb_eq _ _) Htype)) as Hout.
    pose proof (success_rate_breach_of_summary _ _ _ _ Hfound Hb
                  (proj1 (String.eqb_eq _ _) Htype)) as Hin.
    rewrite Hzero in Hout.
    unfold summary_rates in Hin. simpl in Hin.
    repeat (apply elem_of_cons in Hin as [Hin | Hin];
            [by rewrite Hin in Hout|]).
    by apply elem_of_nil in Hin. }
  destruct (SeverityClassifier.breach_percentage_from_greatest found 0 Hnz)
    as (p & Hp & _ & Hall & Hattained).
  exists found, p. split; [done|]. split; [done|]. split; [done|].
  destruct Hattained as [-> | (b & Hb & Hsr & <-)]; [|by apply Hfull].
  exfalso. pose proof (Hall g Hg eq_refl) as Hle.
  rewrite (Hfull g Hg eq_refl) in Hle. by apply Hle.
Qed.

Lemma empty_summary_alarms_default :
  ∃ found p,
    check_thresholds DEFAULT_CONFIG initial_summary = Ok found
    ∧ {| b_level := "global"; b_layer := None; b_dataset := None;
         b_type := "success_rate";
         b_threshold := tr_success_rate (at_global (thresholds DEFAULT_CONFIG));
         b_actual := 0 |} ∈ found
    ∧ breach_percentage_from 0 found = Ok p
    ∧ (p == 100)%Q.
Proof.
  apply (empty_summary_alarms DEFAULT_CONFIG). reflexivity.
Defined.

Lemma percentage_of_checked_breaches_orders :
  ∃ found p,
    check_thresholds DEFAULT_CONFIG (summary_of "orders" orders_failed)
    = Ok found
    ∧ breach_percentage_from 0 found = Ok p
    ∧ (0 <= p)%Q ∧ (p <= 100)%Q.
Proof.
  apply (percentage_of_checked_breaches DEFAULT_CONFIG
           (summary_of "orders" orders_failed)); reflexivity.
Defined.

End SeverityLoop.

(** ** The pruning of the alert history *)

Module HistoryPruning.
Import AlertManager.

Lemma filter_twice {A} (P : A → Prop) `{!∀ x, Decision (P x)} (l : list A) :
  filter P (filter P l) = filter P l.
Proof.
  induction l as [|x l IH]; [done|].
  destruct (decide (P x)).
  - rewrite !filter_cons_True by done. by rewrite IH.
  - by rewrite filter_cons_False.
Qed.

Section Pruning.
Context {Alert : Type}.
Context (alert_get_timestamp : Alert → option string).
Context (cutoff_date_of : Z → option string).

Implicit Types (cfg : config) (history : list Alert).

Lemma size_pruned_zero history : size_pruned 0 history = history.
Proof.
  unfold size_pruned, py_slice_from. simpl.
  rewrite Z.min_l by lia. by destruct (0 <? _).
Qed.

Lemma size_pruned_short (max : Z) history :
  Z.of_nat (length history) ≤ max → size_pruned max history = history.
Proof.
  intros Hlen. unfold size_pruned.
  by assert ((max <? Z.of_nat (length history)) = false) as ->
    by (apply Z.ltb_ge; lia).
Qed.

Lemma size_pruned_drop (max : Z) history :
  ∃ n, size_pruned max history = drop n history.
Proof.
  unfold size_pruned, py_slice_from.
  destruct (max <? _); [by eexists | by exists 0%nat].
Qed.

Lemma size_pruned_length (max : Z) history :
  0 < max → Z.of_nat (length (size_pruned max history)) ≤ max.
Proof.
  intros Hmax. unfold size_pruned.
  destruct (max <? Z.of_nat (length history)) eqn:Hlen.
  - unfold py_slice_from.
    assert ((- max <? 0) = true) as -> by (apply Z.ltb_lt; lia).
    rewrite length_drop. apply Z.ltb_lt in Hlen. lia.
  - apply Z.ltb_ge in Hlen. lia.
Qed.

(** The in-memory history a save leaves, by cases. *)
Lemma saved_history cfg (file_writable : bool) history :
  alert_history
    (_save_alert_history alert_get_timestamp cutoff_date_of cfg
       file_writable history)
  = if 0 <? retention_days (history_config cfg) then
      match cutoff_date_of (retention_days (history_config cfg)) with
      | Some cutoff_date =>
          filter (λ alert,
                    recent_enough alert_get_timestamp cutoff_date alert = true)
                 (size_pruned (max_entries (history_config cfg)) history)
      | None => size_pruned (max_entries (history_config cfg)) history
      end
    else size_pruned (max_entries (history_config cfg)) history.
Proof.
  unfold _save_alert_history, size_pruned.
  destruct (0 <? retention_days _); [|done].
  by destruct (cutoff_date_of _).
Qed.

(** X18: with a bound that is not negative, saving again at the same
    time changes nothing: what a save keeps, the next save keeps. *)
Theorem save_twice cfg (writable writable' : bool) history :
  0 ≤ max_entries (history_config cfg) →
  alert_history
    (_save_alert_history alert_get_timestamp cutoff_date_of cfg writable'
       (alert_history
          (_save_alert_history alert_get_timestamp cutoff_date_of cfg
             writable history)))
  = alert_history
      (_save_alert_history alert_get_timestamp cutoff_date_of cfg
         writable history).
Proof.
  intros Hmax. rewrite !saved_history.
  assert (∀ kept : list Alert,
            Z.of_nat (length kept)
            ≤ Z.of_nat (length (size_pruned (max_entries (history_config cfg))
                                            history)) →
            size_pruned (max_entries (history_config cfg)) kept = kept)
    as Hkept.
  { intros kept Hlen.
    destruct (decide (max_entries (history_config cfg) = 0)) as [-> | Hne].
    - apply size_pruned_zero.
    - apply size_pruned_short. etrans; [exact Hlen|].
      apply size_pruned_length. lia. }
  destruct (0 <? retention_days _).
  - destruct (cutoff_date_of _) as [cutoff_date|].
    + rewrite Hkept by (apply inj_le, length_filter).
      apply filter_twice.
    + by apply Hkept.
  - by apply Hkept.
Qed.

(** X19: a save only removes: the history it leaves is the history it
    was given with some records taken out, the others in their order. *)
Theorem save_keeps_a_sublist cfg (file_writable : bool) history :
  alert_history
    (_save_alert_history alert_get_timestamp cutoff_date_of cfg
       file_writable history)
  `sublist_of` history.
Proof.
  rewrite saved_history.
  destruct (size_pruned_drop (max_entries (history_config cfg)) history)
    as [n ->].
  destruct (0 <? retention_days _); [|apply sublist_drop].
  destruct (cutoff_date_of _); [|apply sublist_drop].
  etrans; [apply sublist_filter | apply sublist_drop].
Qed.

(** X20: with a negative bound and the retention switched off, every
    save drops the oldest records, as many as the bound is below zero. *)
Theorem negative_bound_drops_oldest cfg (file_writable : bool) history :
  max_entries (history_config cfg) < 0 →
  retention_days (history_config cfg) ≤ 0 →
  alert_history
    (_save_alert_history alert_get_timestamp cutoff_date_of cfg
       file_writable history)
  = drop (Z.to_nat (- max_entries (history_config cfg))) history.
Proof.
  intros Hmax Hret. rewrite saved_history.
  assert ((0 <? retention_days (history_config cfg)) = false) as ->
    by (apply Z.ltb_ge; lia).
  unfold size_pruned, py_slice_from.
  assert ((max_entries (history_config cfg) <? Z.of_nat (length history))
          = true) as -> by (apply Z.ltb_lt; lia).
  assert ((- max_entries (history_config cfg) <? 0) = false) as ->
    by (apply Z.ltb_ge; lia).
  destruct (decide (- max_entries (history_config cfg)
                    ≤ Z.of_nat (length history))) as [Hle | Hgt].
  - by rewrite Z.min_l.
  - rewrite Z.min_r by lia. by rewrite !drop_ge by lia.
Qed.

(** X22: under a retention whose cutoff date is above the string ["0"],
    as every ISO date is, a save drops the alerts that have no
    timestamp. *)
Theorem alerts_without_timestamp_are_dropped cfg (file_writable : bool)
    history (cutoff_date : string) (alert : Alert) :
  0 < retention_days (history_config cfg) →
  cutoff_date_of (retention_days (history_config cfg)) = Some cutoff_date →
  String.ltb "0" cutoff_date = true →
  alert ∈ alert_history
            (_save_alert_history alert_get_timestamp cutoff_date_of cfg
               file_writable history) →
  is_Some (alert_get_timestamp alert).
Proof.
  intros Hret%Z.ltb_lt Hcut Hiso. rewrite saved_history, Hret, Hcut.
  intros [Hrecent _]%list_elem_of_filter.
  unfold recent_enough, py_str_ge in Hrecent.
  destruct (alert_get_timestamp alert); [by eexists|].
  simpl in Hrecent. by rewrite Hiso in Hrecent.
Qed.

End Pruning.

Lemma save_twice_october :
  alert_history
    (_save_alert_history stamped august_cutoff (with_history 90 2) true
       (alert_history
          (_save_alert_history stamped august_cutoff (with_history 90 2) true
             october_alerts)))
  = alert_history
      (_save_alert_history stamped august_cutoff (with_history 90 2) true
         october_alerts).
Proof.
  apply (save_twice stamped august_cutoff (with_history 90 2) true true
           october_alerts).
  discriminate.
Defined.

Lemma negative_bound_drops_oldest_october :
  alert_history
    (_save_alert_history stamped august_cutoff (with_history 0 (-1)) true
       october_alerts)
  = drop (Z.to_nat (- (-1))) october_alerts.
Proof.
  apply (negative_bound_drops_oldest stamped august_cutoff
           (with_history 0 (-1)) true october_alerts);
    [reflexivity | discriminate].
Defined.

Lemma alerts_without_timestamp_are_dropped_october :
  is_Some (stamped "2026-10-02T08:00:00").
Proof.
  apply (alerts_without_timestamp_are_dropped stamped august_cutoff
           (with_history 90 1000) true october_alerts
           "2026-08-05T09:30:00" "2026-10-02T08:00:00");
    [reflexivity | reflexivity | reflexivity |].
  vm_compute. apply list_elem_of_In. simpl. auto.
Defined.

End HistoryPruning.
